(** * Filtering log of the AdGuard browser extension

    A shallow embedding of [Extension/lib/filter/filtering-log.js]: the
    per-tab registry [tabsInfoMap], the bounded buffer [filteringEvents] of
    every tab, the back-binding of rules to recorded events, and the counter
    of opened filtering-log pages that gates recording.

    The module is a closure over mutable state.  Here the state is an explicit
    record threaded through every function, and the calls of
    [adguard.listeners.notifyListeners] are kept as a trace inside it: each
    entry holds the arguments as a synchronous listener sees them at the time
    of the call. *)

From stdpp Require Import gmap strings list fin_maps.

Local Open Scope Z_scope.

(** ** The host object [adguard] *)

(** What the module reads from the global [adguard]: constants, preferences
    and helper functions defined elsewhere in the extension. *)
Class Adguard := {
  (** DOM elements handed to [addCosmeticEvent] *)
  Element : Type;
  (** [adguard.BACKGROUND_TAB_ID] *)
  BACKGROUND_TAB_ID : Z;
  (** [adguard.i18n.getMessage('background_tab_title')] *)
  background_tab_title : string;
  (** [adguard.prefs.features.hasBackgroundTab] *)
  hasBackgroundTab : bool;
  (** [adguard.getURL('')] *)
  getURL_empty : string;
  (** [adguard.utils.url.getDomainName]; [None] is [null] *)
  getDomainName : string → option string;
  (** [adguard.utils.url.isThirdPartyRequest] *)
  isThirdPartyRequest : string → string → bool;
  (** [adguard.utils.strings.elementToString] *)
  elementToString : Element → string;
}.

(** ** Data *)

(** A tab as the host hands it over.  [tab_url = None] is a tab whose
    [url] is [undefined]. *)
Record Tab := mkTab {
  tab_tabId : Z;
  tab_title : string;
  tab_url : option string;
}.

(** The value of [tab.url && tab.url.indexOf(extensionURL) === 0]: the
    operator [&&] yields its left operand when that is falsy. *)
Inductive JsFlag :=
  | JsUndefined
  | JsEmptyString
  | JsBool (b : bool).

(** The classes a rule is tested against with [instanceof], with what
    [appendProperties] reads of a [UrlFilterRule].  [getCookieOption] is
    the object the method of that name returns, or [None]. *)
Inductive RuleClass :=
  | ContentFilterRule
  | CssFilterRule
  | UrlFilterRule (whiteListRule : bool) (isCspRule : bool)
                  (cspDirective : option string)
                  (getCookieOption : option string)
  | OtherRule.

(** A rule of the filtering engine. *)
Record Rule := mkRule {
  rule_filterId : Z;
  rule_ruleText : string;
  rule_class : RuleClass;
  rule_stealthActions : option Z;
}.

(** The object stored under [requestRule], and each element of
    [replaceRules].  A field is [None] when the property is not set. *)
Record RuleSnapshot := mkRuleSnapshot {
  filterId : option Z;
  ruleText : option string;
  contentRule : option bool;
  cssRule : option bool;
  whiteListRule : option bool;
  cspRule : option bool;
  cspDirective : option string;
  cookieRule : option bool;
  replaceRule : option bool;
  isModifyingCookieRule : option bool;
}.

(** A filtering event.  A field is [None] when the property is not set (it
    then reads as [undefined]); the domains are [Some None] when
    [getDomainName] gave [null]. *)
Record FilteringEvent := mkFilteringEvent {
  eventId : option Z;
  requestUrl : option string;
  requestDomain : option (option string);
  frameUrl : option string;
  frameDomain : option (option string);
  requestType : option string;
  requestThirdParty : option bool;
  element : option string;
  cookieName : option string;
  cookieValue : option string;
  requestRule : option RuleSnapshot;
  replaceRules : option (list RuleSnapshot);
  stealthActions : option Z;
}.

(** An entry of [tabsInfoMap].  [backgroundTab] has no [isExtensionTab];
    [filteringEvents] is [None] until the first event is pushed and after a
    [delete]. *)
Record TabInfo := mkTabInfo {
  tabId : Z;
  title : string;
  isExtensionTab : option JsFlag;
  filteringEvents : option (list FilteringEvent);
}.

(** One call of [adguard.listeners.notifyListeners], by event type. *)
Inductive Notification :=
  | TAB_ADDED (tabInfo : TabInfo)
  | TAB_CLOSE (tabInfo : TabInfo)
  | TAB_UPDATE (tabInfo : TabInfo)
  | TAB_RESET (tabInfo : TabInfo)
  | LOG_EVENT_ADDED (tabInfo : TabInfo) (filteringEvent : FilteringEvent)
  | LOG_EVENT_UPDATED (tabInfo : TabInfo) (filteringEvent : FilteringEvent).

(** The state of the closure, and the trace of notifications. *)
Record State := mkState {
  tabsInfoMap : gmap Z TabInfo;
  openedFilteringLogsPage : Z;
  notified : list Notification;
}.

Definition REQUESTS_SIZE_PER_TAB : nat := 1000.

(** ** Small helpers of the embedding *)

Definition notifyListeners (n : Notification) (st : State) : State :=
  mkState (tabsInfoMap st) (openedFilteringLogsPage st) (notified st ++ [n]).

(** [tabsInfoMap[key] = tabInfo] *)
Definition storeTabInfo (key : Z) (tabInfo : TabInfo) (st : State) : State :=
  mkState (<[key := tabInfo]> (tabsInfoMap st)) (openedFilteringLogsPage st)
          (notified st).

(** [tabInfo.filteringEvents = events] *)
Definition withFilteringEvents (events : option (list FilteringEvent))
    (tabInfo : TabInfo) : TabInfo :=
  mkTabInfo (tabId tabInfo) (title tabInfo) (isExtensionTab tabInfo) events.

(** [delete tabInfo.filteringEvents] *)
Definition deleteFilteringEvents (tabInfo : TabInfo) : TabInfo :=
  withFilteringEvents None tabInfo.

(** [{}] *)
Definition emptyRule : RuleSnapshot :=
  mkRuleSnapshot None None None None None None None None None None.

(** [event.requestRule = r] *)
Definition withRequestRule (r : RuleSnapshot) (e : FilteringEvent)
    : FilteringEvent :=
  mkFilteringEvent (eventId e) (requestUrl e) (requestDomain e) (frameUrl e)
    (frameDomain e) (requestType e) (requestThirdParty e) (element e)
    (cookieName e) (cookieValue e) (Some r) (replaceRules e)
    (stealthActions e).

(** [event.replaceRules = rs] *)
Definition withReplaceRules (rs : list RuleSnapshot) (e : FilteringEvent)
    : FilteringEvent :=
  mkFilteringEvent (eventId e) (requestUrl e) (requestDomain e) (frameUrl e)
    (frameDomain e) (requestType e) (requestThirdParty e) (element e)
    (cookieName e) (cookieValue e) (requestRule e) (Some rs)
    (stealthActions e).

(** [event.stealthActions = actions] *)
Definition withStealthActions (actions : Z) (e : FilteringEvent)
    : FilteringEvent :=
  mkFilteringEvent (eventId e) (requestUrl e) (requestDomain e) (frameUrl e)
    (frameDomain e) (requestType e) (requestThirdParty e) (element e)
    (cookieName e) (cookieValue e) (requestRule e) (replaceRules e)
    (Some actions).

(** Truthiness of a number that may be missing. *)
Definition truthyNumber (n : option Z) : bool :=
  match n with
  | Some k => negb (k =? 0)
  | None => false
  end.

(** ** The functions of the module *)

Section FilteringLog.
Context `{Adguard}.

Definition backgroundTabId : Z := BACKGROUND_TAB_ID.

Definition backgroundTab : TabInfo :=
  mkTabInfo backgroundTabId background_tab_title None None.

Definition extensionURL : string := getURL_empty.

(** The state when the closure has run up to (not including) its call of
    [synchronizeOpenTabs]. *)
Definition initialState : State :=
  mkState (if hasBackgroundTab then {[backgroundTabId := backgroundTab]}
           else ∅)
          0 [].

Definition isExtensionTabOf (tab : Tab) : JsFlag :=
  match tab_url tab with
  | None => JsUndefined
  | Some EmptyString => JsEmptyString
  | Some u => JsBool (String.prefix extensionURL u)
  end.

Definition updateTabInfo (tab : Tab) (st : State) : TabInfo * State :=
  let tabInfo :=
    match tabsInfoMap st !! tab_tabId tab with
    | Some tabInfo => tabInfo
    | None => mkTabInfo 0 "" None None   (* Object.create(null) *)
    end in
  let tabInfo :=
    mkTabInfo (tab_tabId tab) (tab_title tab) (Some (isExtensionTabOf tab))
              (filteringEvents tabInfo) in
  (tabInfo, storeTabInfo (tab_tabId tab) tabInfo st).

Definition addTab (tab : Tab) (st : State) : State :=
  if decide (tab_tabId tab = backgroundTabId) then st
  else
    let '(tabInfo, st) := updateTabInfo tab st in
    notifyListeners (TAB_ADDED tabInfo) st.

Definition removeTabById (id : Z) (st : State) : State :=
  if decide (id = backgroundTabId) then st
  else
    let st :=
      match tabsInfoMap st !! id with
      | Some tabInfo => notifyListeners (TAB_CLOSE tabInfo) st
      | None => st
      end in
    mkState (delete id (tabsInfoMap st)) (openedFilteringLogsPage st)
            (notified st).

Definition updateTab (tab : Tab) (st : State) : State :=
  if decide (tab_tabId tab = backgroundTabId) then st
  else
    let '(tabInfo, st) := updateTabInfo tab st in
    notifyListeners (TAB_UPDATE tabInfo) st.

Definition appendProperties (destinationRule : RuleSnapshot)
    (sourceRule : Rule) : RuleSnapshot :=
  let d := destinationRule in
  let fid := Some (rule_filterId sourceRule) in
  let txt := Some (rule_ruleText sourceRule) in
  match rule_class sourceRule with
  | ContentFilterRule =>
      mkRuleSnapshot fid txt (Some true) (cssRule d) (whiteListRule d)
        (cspRule d) (cspDirective d) (cookieRule d) (replaceRule d)
        (isModifyingCookieRule d)
  | CssFilterRule =>
      mkRuleSnapshot fid txt (contentRule d) (Some true) (whiteListRule d)
        (cspRule d) (cspDirective d) (cookieRule d) (replaceRule d)
        (isModifyingCookieRule d)
  | UrlFilterRule wl csp directive cookieOption =>
      mkRuleSnapshot fid txt (contentRule d) (cssRule d) (Some wl)
        (Some csp) directive (Some (bool_decide (is_Some cookieOption)))
        (replaceRule d) (isModifyingCookieRule d)
  | OtherRule =>
      mkRuleSnapshot fid txt (contentRule d) (cssRule d) (whiteListRule d)
        (cspRule d) (cspDirective d) (cookieRule d) (replaceRule d)
        (isModifyingCookieRule d)
  end.

Definition addRuleToFilteringEvent (filteringEvent : FilteringEvent)
    (requestRule : Rule) : FilteringEvent :=
  withRequestRule (appendProperties emptyRule requestRule) filteringEvent.

Definition addReplaceRulesToFilteringEvent (filteringEvent : FilteringEvent)
    (replaceRules : list Rule) : FilteringEvent :=
  let replaceMark :=
    mkRuleSnapshot None None None None None None None None (Some true)
                   None in
  let filteringEvent := withRequestRule replaceMark filteringEvent in
  withReplaceRules
    (fold_left (λ acc replaceRule,
                  acc ++ [appendProperties emptyRule replaceRule])
               replaceRules [])
    filteringEvent.

(** [tabInfo] is the object the caller has read from [tabsInfoMap] under
    [key]: changing the object is storing the changed entry under that
    key. *)
Definition pushFilteringEvent (key : Z) (tabInfo : TabInfo)
    (filteringEvent : FilteringEvent) (st : State) : State :=
  let events :=
    match filteringEvents tabInfo with
    | Some events => events
    | None => []
    end in
  let events := events ++ [filteringEvent] in
  let events :=
    if decide (REQUESTS_SIZE_PER_TAB < length events)%nat
    then delete 1%nat events   (* splice(1, 1) *)
    else events in
  let tabInfo := withFilteringEvents (Some events) tabInfo in
  notifyListeners (LOG_EVENT_ADDED tabInfo filteringEvent)
                  (storeTabInfo key tabInfo st).

Definition getFilteringInfoByTabId (id : Z) (st : State) : option TabInfo :=
  tabsInfoMap st !! id.

Definition addHttpRequestEvent (tab : Tab) (requestUrl frameUrl : string)
    (requestType : string) (requestRule : option Rule) (eventId : option Z)
    (st : State) : State :=
  if decide (openedFilteringLogsPage st = 0) then st
  else
    match tabsInfoMap st !! tab_tabId tab with
    | None => st
    | Some tabInfo =>
        let requestDomain := getDomainName requestUrl in
        let frameDomain := getDomainName frameUrl in
        let filteringEvent :=
          mkFilteringEvent eventId (Some requestUrl) (Some requestDomain)
            (Some frameUrl) (Some frameDomain) (Some requestType)
            (Some (isThirdPartyRequest requestUrl frameUrl))
            None None None None None None in
        let filteringEvent :=
          match requestRule with
          | Some requestRule =>
              addRuleToFilteringEvent filteringEvent requestRule
          | None => filteringEvent
          end in
        pushFilteringEvent (tab_tabId tab) tabInfo filteringEvent st
    end.

Definition addCosmeticEvent (tab : Tab) (element : string + Element)
    (frameUrl : string) (requestType : string) (requestRule : option Rule)
    (st : State) : State :=
  if decide (openedFilteringLogsPage st = 0) then st
  else
    match requestRule with
    | None => st
    | Some requestRule =>
        match tabsInfoMap st !! tab_tabId tab with
        | None => st
        | Some tabInfo =>
            let frameDomain := getDomainName frameUrl in
            let filteringEvent :=
              mkFilteringEvent None None None (Some frameUrl)
                (Some frameDomain) (Some requestType) None
                (Some match element with
                      | inl s => s
                      | inr e => elementToString e
                      end)
                None None None None None in
            let filteringEvent :=
              addRuleToFilteringEvent filteringEvent requestRule in
            pushFilteringEvent (tab_tabId tab) tabInfo filteringEvent st
        end
    end.

(** The loop [for (let i = events.length - 1; i >= 0; i -= 1)] of the three
    binding functions, entered with [n = i + 1]; [mutate] is what the body
    does to the event it finds before it notifies and breaks.  The result is
    the array after the mutation and the mutated event, or [None] when the
    loop ends without a match. *)
Fixpoint bindLoop (mutate : FilteringEvent → FilteringEvent)
    (id : option Z) (events : list FilteringEvent) (n : nat)
    : option (list FilteringEvent * FilteringEvent) :=
  match n with
  | O => None
  | S i =>
      match events !! i with
      | Some event =>
          if decide (eventId event = id)
          then Some (<[i := mutate event]> events, mutate event)
          else bindLoop mutate id events i
      | None => bindLoop mutate id events i
      end
  end.

(** The body the three binding functions share. *)
Definition bindToHttpRequestEvent (mutate : FilteringEvent → FilteringEvent)
    (tab : Tab) (id : option Z) (st : State) : State :=
  if decide (openedFilteringLogsPage st = 0) then st
  else
    match tabsInfoMap st !! tab_tabId tab with
    | None => st
    | Some tabInfo =>
        match filteringEvents tabInfo with
        | None => st
        | Some events =>
            match bindLoop mutate id events (length events) with
            | None => st
            | Some (events, event) =>
                let tabInfo := withFilteringEvents (Some events) tabInfo in
                notifyListeners (LOG_EVENT_UPDATED tabInfo event)
                                (storeTabInfo (tab_tabId tab) tabInfo st)
            end
        end
    end.

Definition bindRuleToHttpRequestEvent (tab : Tab) (requestRule : Rule)
    (eventId : option Z) (st : State) : State :=
  bindToHttpRequestEvent
    (λ event, addRuleToFilteringEvent event requestRule) tab eventId st.

Definition bindReplaceRulesToHttpRequestEvent (tab : Tab)
    (replaceRules : list Rule) (eventId : option Z) (st : State) : State :=
  bindToHttpRequestEvent
    (λ event, addReplaceRulesToFilteringEvent event replaceRules)
    tab eventId st.

(** [filteringEvent.requestRule.isModifyingCookieRule = b], after
    [addRuleToFilteringEvent] has set [requestRule]. *)
Definition setIsModifyingCookieRule (b : bool) (e : FilteringEvent)
    : FilteringEvent :=
  match requestRule e with
  | Some r =>
      withRequestRule
        (mkRuleSnapshot (filterId r) (ruleText r) (contentRule r) (cssRule r)
           (whiteListRule r) (cspRule r) (cspDirective r) (cookieRule r)
           (replaceRule r) (Some b))
        e
  | None => e
  end.

Definition addCookieEvent (tab : Tab) (cookieName cookieValue : string)
    (cookieDomain : string) (requestType : string) (cookieRule : option Rule)
    (isModifyingCookieRule : bool) (thirdParty : bool) (st : State) : State :=
  if decide (openedFilteringLogsPage st = 0) then st
  else
    match tabsInfoMap st !! tab_tabId tab with
    | None => st
    | Some tabInfo =>
        let filteringEvent :=
          mkFilteringEvent None None None None (Some (Some cookieDomain))
            (Some requestType) (Some thirdParty) None (Some cookieName)
            (Some cookieValue) None None None in
        let filteringEvent :=
          match cookieRule with
          | Some cookieRule =>
              let filteringEvent :=
                addRuleToFilteringEvent filteringEvent cookieRule in
              let filteringEvent :=
                setIsModifyingCookieRule isModifyingCookieRule
                                         filteringEvent in
              if truthyNumber (rule_stealthActions cookieRule)
              then match rule_stealthActions cookieRule with
                   | Some actions => withStealthActions actions filteringEvent
                   | None => filteringEvent
                   end
              else filteringEvent
          | None => filteringEvent
          end in
        pushFilteringEvent (tab_tabId tab) tabInfo filteringEvent st
    end.

Definition bindStealthActionsToHttpRequestEvent (tab : Tab) (actions : Z)
    (eventId : option Z) (st : State) : State :=
  bindToHttpRequestEvent (withStealthActions actions) tab eventId st.

Definition clearEventsByTabId (id : Z) (st : State) : State :=
  match tabsInfoMap st !! id with
  | Some tabInfo =>
      let tabInfo := deleteFilteringEvents tabInfo in
      notifyListeners (TAB_RESET tabInfo) (storeTabInfo id tabInfo st)
  | None => st
  end.

(** [tabIdsToRemove.indexOf(id)]; [None] stands for [-1]. *)
Fixpoint indexOf (id : Z) (ids : list Z) : option nat :=
  match ids with
  | [] => None
  | x :: rest =>
      if decide (x = id) then Some O else S <$> indexOf id rest
  end.

(** One round of the loop over the open tabs. *)
Definition synchronizeOpenTab (acc : State * list Z) (openTab : Tab)
    : State * list Z :=
  let '(st, tabIdsToRemove) := acc in
  let st :=
    match tabsInfoMap st !! tab_tabId openTab with
    | None => addTab openTab st
    | Some _ => updateTab openTab st
    end in
  let tabIdsToRemove :=
    match indexOf (tab_tabId openTab) tabIdsToRemove with
    | Some index => delete index tabIdsToRemove   (* splice(index, 1) *)
    | None => tabIdsToRemove
    end in
  (st, tabIdsToRemove).

(** The keys of [tabsInfoMap].  They come in the order the finite map lists
    them, which need not be the property order of the engine; the order only
    shows in the order of [TAB_CLOSE] notifications of one sweep. *)
Definition tabsInfoMapKeys (st : State) : list Z :=
  (map_to_list (tabsInfoMap st)).*1.

(** The body of the callback handed to [adguard.tabs.getAll], with [tabs]
    the list the host answers. *)
Definition synchronizeOpenTabs (tabs : list Tab) (st : State) : State :=
  let tabIdsToRemove := tabsInfoMapKeys st in
  let '(st, tabIdsToRemove) :=
    fold_left synchronizeOpenTab tabs (st, tabIdsToRemove) in
  fold_left (λ st id, removeTabById id st) tabIdsToRemove st.

(** What [synchronizeOpenTabs] hands to its [callback]. *)
Definition syncTabs (st : State) : list TabInfo :=
  (map_to_list (tabsInfoMap st)).*2.

Definition onOpenFilteringLogPage (st : State) : State :=
  mkState (tabsInfoMap st) (openedFilteringLogsPage st + 1) (notified st).

Definition onCloseFilteringLogPage (st : State) : State :=
  let opened := Z.max (openedFilteringLogsPage st - 1) 0 in
  if decide (opened = 0)
  then mkState (deleteFilteringEvents <$> tabsInfoMap st) opened (notified st)
  else mkState (tabsInfoMap st) opened (notified st).

Definition isOpen (st : State) : bool :=
  bool_decide (0 < openedFilteringLogsPage st).

(** ** The module as a transition system *)

(** The calls the rest of the extension can make: the functions the module
    returns, and the three listeners it binds to the tab events. *)
Inductive Call :=
  | SynchronizeOpenTabs (tabs : list Tab)
  | OnCreated (tab : Tab)
  | OnUpdated (tab : Tab)
  | OnRemoved (tab : Tab)
  | AddHttpRequestEvent (tab : Tab) (requestUrl frameUrl requestType : string)
      (requestRule : option Rule) (eventId : option Z)
  | AddCosmeticEvent (tab : Tab) (element : string + Element)
      (frameUrl requestType : string) (requestRule : option Rule)
  | AddCookieEvent (tab : Tab) (cookieName cookieValue cookieDomain : string)
      (requestType : string) (cookieRule : option Rule)
      (isModifyingCookieRule thirdParty : bool)
  | BindRuleToHttpRequestEvent (tab : Tab) (requestRule : Rule)
      (eventId : option Z)
  | BindReplaceRulesToHttpRequestEvent (tab : Tab) (replaceRules : list Rule)
      (eventId : option Z)
  | BindStealthActionsToHttpRequestEvent (tab : Tab) (actions : Z)
      (eventId : option Z)
  | ClearEventsByTabId (id : Z)
  | OnOpenFilteringLogPage
  | OnCloseFilteringLogPage.

Definition step (st : State) (c : Call) : State :=
  match c with
  | SynchronizeOpenTabs tabs => synchronizeOpenTabs tabs st
  | OnCreated tab => addTab tab st
  | OnUpdated tab => updateTab tab st
  | OnRemoved tab => removeTabById (tab_tabId tab) st
  | AddHttpRequestEvent tab u f ty r id =>
      addHttpRequestEvent tab u f ty r id st
  | AddCosmeticEvent tab el f ty r => addCosmeticEvent tab el f ty r st
  | AddCookieEvent tab n v d ty r m tp =>
      addCookieEvent tab n v d ty r m tp st
  | BindRuleToHttpRequestEvent tab r id =>
      bindRuleToHttpRequestEvent tab r id st
  | BindReplaceRulesToHttpRequestEvent tab rs id =>
      bindReplaceRulesToHttpRequestEvent tab rs id st
  | BindStealthActionsToHttpRequestEvent tab a id =>
      bindStealthActionsToHttpRequestEvent tab a id st
  | ClearEventsByTabId id => clearEventsByTabId id st
  | OnOpenFilteringLogPage => onOpenFilteringLogPage st
  | OnCloseFilteringLogPage => onCloseFilteringLogPage st
  end.

Definition run (st : State) (calls : list Call) : State :=
  fold_left step calls st.

End FilteringLog.

(** ** Vocabulary of the statements *)

(** The notifications published between two states. *)
Definition emitted (st st' : State) : list Notification :=
  drop (length (notified st)) (notified st').

Definition isTabAdded (n : Notification) : bool :=
  match n with TAB_ADDED _ => true | _ => false end.

Definition isTabClose (n : Notification) : bool :=
  match n with TAB_CLOSE _ => true | _ => false end.


(** The buffer of a tab, if the tab is known and has one. *)
Definition bufferOf (id : Z) (st : State) : option (list FilteringEvent) :=
  tabsInfoMap st !! id ≫= filteringEvents.

(** Between [st] and [st'] the event [event] was put at the end of the buffer
    of tab [id], and the one notification published is [LOG_EVENT_ADDED] for
    it. *)
Definition appended (id : Z) (event : FilteringEvent) (st st' : State)
    : Prop :=
  ∃ tabInfo,
    tabsInfoMap st' !! id = Some tabInfo
    ∧ filteringEvents tabInfo ≫= last = Some event
    ∧ notified st' = notified st ++ [LOG_EVENT_ADDED tabInfo event].

(** What [pushFilteringEvent] makes of a buffer: the event goes to the end,
    and past 1000 entries the entry at index 1 is taken out. *)
Definition pushBuffer (events : list FilteringEvent)
    (event : FilteringEvent) : list FilteringEvent :=
  let events := events ++ [event] in
  if decide (1000 < length events)%nat then delete 1%nat events else events.

(** Between [st] and [st'] the entry at index [i] of the buffer [events] of
    tab [id] has become [event'], nothing else has changed in the buffer, the
    tab or the registry, and the one notification published is
    [LOG_EVENT_UPDATED] for that event. *)
Definition updatedAt (id : Z) (tabInfo : TabInfo)
    (events : list FilteringEvent) (i : nat) (event' : FilteringEvent)
    (st st' : State) : Prop :=
  let events' := <[i := event']> events in
  let tabInfo' := withFilteringEvents (Some events') tabInfo in
  tabsInfoMap st' = <[id := tabInfo']> (tabsInfoMap st)
  ∧ openedFilteringLogsPage st' = openedFilteringLogsPage st
  ∧ emitted st st' = [LOG_EVENT_UPDATED tabInfo' event']
  ∧ bufferOf id st' = Some events'
  ∧ events' !! i = Some event'
  ∧ ∀ j, j ≠ i → events' !! j = events !! j.

(** No buffer of the registry holds more than 1000 events. *)
Definition buffersBounded (st : State) : Prop :=
  map_Forall
    (λ _ tabInfo,
       (length (default [] (filteringEvents tabInfo)) ≤ 1000)%nat)
    (tabsInfoMap st).

(** The [eventId]s of the buffer of a tab, in the order of the buffer. *)
Definition eventIdsOf (id : Z) (st : State) : option (list (option Z)) :=
  (λ events : list FilteringEvent, eventId <$> events) <$> bufferOf id st.

(** Every entry of the registry is stored under its own [tabId]. *)
Definition keyedByTabId (st : State) : Prop :=
  map_Forall (λ key tabInfo, tabId tabInfo = key) (tabsInfoMap st).

(** The counter of opened pages is not negative, and while it is 0 no tab
    has a buffer. *)
Definition gateKept (st : State) : Prop :=
  0 ≤ openedFilteringLogsPage st
  ∧ (openedFilteringLogsPage st = 0 →
     map_Forall (λ _ tabInfo, filteringEvents tabInfo = None)
                (tabsInfoMap st)).

(** The arguments of one call of [addHttpRequestEvent] for a given tab. *)
Record Request := mkRequest {
  req_requestUrl : string;
  req_frameUrl : string;
  req_requestType : string;
  req_requestRule : option Rule;
  req_eventId : option Z;
}.

(** The snapshot of a rule as the data model describes it: the filter id and
    the rule text, then one discriminator by the variant of the rule, with
    the three attributes of a network rule; nothing else is set. *)
Definition snapshotOf (rule : Rule) : RuleSnapshot :=
  match rule_class rule with
  | ContentFilterRule =>
      mkRuleSnapshot (Some (rule_filterId rule)) (Some (rule_ruleText rule))
        (Some true) None None None None None None None
  | CssFilterRule =>
      mkRuleSnapshot (Some (rule_filterId rule)) (Some (rule_ruleText rule))
        None (Some true) None None None None None None
  | UrlFilterRule exception csp directive cookie =>
      mkRuleSnapshot (Some (rule_filterId rule)) (Some (rule_ruleText rule))
        None None (Some exception) (Some csp) directive
        (Some match cookie with Some _ => true | None => false end)
        None None
  | OtherRule =>
      mkRuleSnapshot (Some (rule_filterId rule)) (Some (rule_ruleText rule))
        None None None None None None None None
  end.

(** [snapshotOf] with [isModifyingCookieRule] set, as a cookie event has
    it. *)
Definition cookieSnapshotOf (rule : Rule) (isModifying : bool)
    : RuleSnapshot :=
  let s := snapshotOf rule in
  mkRuleSnapshot (filterId s) (ruleText s) (contentRule s) (cssRule s)
    (whiteListRule s) (cspRule s) (cspDirective s) (cookieRule s)
    (replaceRule s) (Some isModifying).

(** An event after a rule was bound to it, field by field: [requestRule] is
    the snapshot of the rule, whatever it was before; every other field is
    the one of the event. *)
Definition eventWithRule (rule : Rule) (e : FilteringEvent)
    : FilteringEvent :=
  mkFilteringEvent (eventId e) (requestUrl e) (requestDomain e) (frameUrl e)
    (frameDomain e) (requestType e) (requestThirdParty e) (element e)
    (cookieName e) (cookieValue e)
    (Some (snapshotOf rule))
    (replaceRules e) (stealthActions e).

(** An event after replace rules were bound to it, field by field:
    [requestRule] only says [replaceRule], [replaceRules] holds the snapshot
    of each rule in the order given; every other field is the one of the
    event. *)
Definition eventWithReplaceRules (rules : list Rule) (e : FilteringEvent)
    : FilteringEvent :=
  mkFilteringEvent (eventId e) (requestUrl e) (requestDomain e) (frameUrl e)
    (frameDomain e) (requestType e) (requestThirdParty e) (element e)
    (cookieName e) (cookieValue e)
    (Some (mkRuleSnapshot None None None None None None None None
                          (Some true) None))
    (Some (snapshotOf <$> rules))
    (stealthActions e).

(** An event after stealth actions were bound to it, field by field:
    [stealthActions] is the number given; every other field, [requestRule]
    and [replaceRules] included, is the one of the event. *)
Definition eventWithActions (actions : Z) (e : FilteringEvent)
    : FilteringEvent :=
  mkFilteringEvent (eventId e) (requestUrl e) (requestDomain e) (frameUrl e)
    (frameDomain e) (requestType e) (requestThirdParty e) (element e)
    (cookieName e) (cookieValue e) (requestRule e) (replaceRules e)
    (Some actions).

Section Requests.
Context `{Adguard}.

(** The calls that maintain the registry: a sweep over the open tabs, and
    the three listeners of the tab events. *)
Inductive RegistryCall :=
  | Reconcile (tabs : list Tab)
  | Create (tab : Tab)
  | Update (tab : Tab)
  | Remove (id : Z).

Definition registryCall (c : RegistryCall) : Call :=
  match c with
  | Reconcile tabs => SynchronizeOpenTabs tabs
  | Create tab => OnCreated tab
  | Update tab => OnUpdated tab
  | Remove id => OnRemoved (mkTab id "" None)
  end.

(** The tab a call records for, binds for or clears; [None] for the calls
    that maintain the registry or the counter. *)
Definition targetTab (c : Call) : option Z :=
  match c with
  | AddHttpRequestEvent tab _ _ _ _ _ => Some (tab_tabId tab)
  | AddCosmeticEvent tab _ _ _ _ => Some (tab_tabId tab)
  | AddCookieEvent tab _ _ _ _ _ _ _ => Some (tab_tabId tab)
  | BindRuleToHttpRequestEvent tab _ _ => Some (tab_tabId tab)
  | BindReplaceRulesToHttpRequestEvent tab _ _ => Some (tab_tabId tab)
  | BindStealthActionsToHttpRequestEvent tab _ _ => Some (tab_tabId tab)
  | ClearEventsByTabId id => Some id
  | _ => None
  end.

(** The three calls that record an event. *)
Definition isRecording (c : Call) : bool :=
  match c with
  | AddHttpRequestEvent _ _ _ _ _ _ => true
  | AddCosmeticEvent _ _ _ _ _ => true
  | AddCookieEvent _ _ _ _ _ _ _ _ => true
  | _ => false
  end.

(** The [TAB_UPDATE] a sweep publishes for an open tab that is registered,
    with the buffer the tab has in [st]. *)
Definition refreshed (st : State) (tab : Tab) : Notification :=
  TAB_UPDATE (mkTabInfo (tab_tabId tab) (tab_title tab)
                        (Some (isExtensionTabOf tab))
                        (bufferOf (tab_tabId tab) st)).

(** The open tabs that are not the background tab. *)
Definition foreground (tabs : list Tab) : list Tab :=
  filter (λ tab, tab_tabId tab ≠ backgroundTabId) tabs.

Definition recordRequest (tab : Tab) (st : State) (r : Request) : State :=
  addHttpRequestEvent tab (req_requestUrl r) (req_frameUrl r)
    (req_requestType r) (req_requestRule r) (req_eventId r) st.

(** The event a request is recorded as. *)
Definition requestEvent (r : Request) : FilteringEvent :=
  mkFilteringEvent (req_eventId r) (Some (req_requestUrl r))
    (Some (getDomainName (req_requestUrl r))) (Some (req_frameUrl r))
    (Some (getDomainName (req_frameUrl r))) (Some (req_requestType r))
    (Some (isThirdPartyRequest (req_requestUrl r) (req_frameUrl r)))
    None None None (snapshotOf <$> req_requestRule r) None None.

End Requests.

(** ** A concrete host, for examples *)

Module Demo.

Definition adguard : Adguard := {|
  Element := string;
  BACKGROUND_TAB_ID := -1;
  background_tab_title := "Background";
  hasBackgroundTab := true;
  getURL_empty := "chrome-extension://adguard/";
  getDomainName := λ url, if String.eqb url "" then None else Some url;
  isThirdPartyRequest := λ requestUrl frameUrl,
    negb (String.eqb requestUrl frameUrl);
  elementToString := λ e, e;
|}.

Definition tab1 : Tab := mkTab 1 "Example" (Some "https://example.org/").
Definition tab2 : Tab :=
  mkTab 2 "Options" (Some "chrome-extension://adguard/options.html").

(** Two tabs known, no filtering-log page opened. *)
Definition closedState : State :=
  @synchronizeOpenTabs adguard [tab1; tab2] (@initialState adguard).

(** The same with one filtering-log page opened. *)
Definition openState : State := onOpenFilteringLogPage closedState.

Definition blockingRule : Rule :=
  mkRule 2 "||ads.example.org^"
         (UrlFilterRule false false None None) None.

(** [openState] after one request of [tab1] has been recorded. *)
Definition loggedState : State :=
  @addHttpRequestEvent adguard tab1 "https://ads.example.org/a.js"
    "https://example.org/" "SCRIPT" None (Some 10) openState.

(** The same after a second request has been recorded under the same
    [eventId]. *)
Definition twiceLoggedState : State :=
  @addHttpRequestEvent adguard tab1 "https://ads.example.org/b.js"
    "https://example.org/" "SCRIPT" None (Some 10) loggedState.

(** The two events of [twiceLoggedState], oldest first. *)
Definition eventA : FilteringEvent :=
  mkFilteringEvent (Some 10) (Some "https://ads.example.org/a.js")
    (Some (Some "https://ads.example.org/a.js"))
    (Some "https://example.org/") (Some (Some "https://example.org/"))
    (Some "SCRIPT") (Some true) None None None None None None.

Definition eventB : FilteringEvent :=
  mkFilteringEvent (Some 10) (Some "https://ads.example.org/b.js")
    (Some (Some "https://ads.example.org/b.js"))
    (Some "https://example.org/") (Some (Some "https://example.org/"))
    (Some "SCRIPT") (Some true) None None None None None None.

(** [eventB] after [blockingRule] was bound to it. *)
Definition eventBWithRule : FilteringEvent :=
  mkFilteringEvent (Some 10) (Some "https://ads.example.org/b.js")
    (Some (Some "https://ads.example.org/b.js"))
    (Some "https://example.org/") (Some (Some "https://example.org/"))
    (Some "SCRIPT") (Some true) None None None
    (Some (mkRuleSnapshot (Some 2) (Some "||ads.example.org^") None None
                          (Some false) (Some false) None (Some false) None
                          None))
    None None.

(** A content rule, to be bound as a replace rule. *)
Definition replacingRule : Rule :=
  mkRule 5 "example.org$$script[tag-content=ads]" ContentFilterRule None.

(** [eventB] after [blockingRule] and [replacingRule] were bound to it as
    replace rules. *)
Definition eventBReplaced : FilteringEvent :=
  mkFilteringEvent (Some 10) (Some "https://ads.example.org/b.js")
    (Some (Some "https://ads.example.org/b.js"))
    (Some "https://example.org/") (Some (Some "https://example.org/"))
    (Some "SCRIPT") (Some true) None None None
    (Some (mkRuleSnapshot None None None None None None None None
                          (Some true) None))
    (Some [mkRuleSnapshot (Some 2) (Some "||ads.example.org^") None None
                          (Some false) (Some false) None (Some false) None
                          None;
           mkRuleSnapshot (Some 5)
                          (Some "example.org$$script[tag-content=ads]")
                          (Some true) None None None None None None None])
    None.

(** [eventB] after the stealth actions 4 were bound to it. *)
Definition eventBWithActions : FilteringEvent :=
  mkFilteringEvent (Some 10) (Some "https://ads.example.org/b.js")
    (Some (Some "https://ads.example.org/b.js"))
    (Some "https://example.org/") (Some (Some "https://example.org/"))
    (Some "SCRIPT") (Some true) None None None None None (Some 4).

(** The entry of [tab1] with a given buffer. *)
Definition tabInfo1 (events : option (list FilteringEvent)) : TabInfo :=
  mkTabInfo 1 "Example" (Some (JsBool false)) events.

(** The calls that lead from the initial state to [loggedState]. *)
Definition history : list (@Call adguard) :=
  [ @SynchronizeOpenTabs adguard [tab1; tab2];
    @OnOpenFilteringLogPage adguard;
    @AddHttpRequestEvent adguard tab1 "https://ads.example.org/a.js"
      "https://example.org/" "SCRIPT" None (Some 10) ].

(** A tab that is not registered in the states above. *)
Definition tab3 : Tab := mkTab 3 "New tab" None.

(** [tab1] as the host reports it after a reload. *)
Definition tab1Reloaded : Tab :=
  mkTab 1 "Example (reloaded)" (Some "https://example.org/?r").

(** A cookie rule whose stealth actions are 0. *)
Definition cookieRule0 : Rule :=
  mkRule 3 "$cookie=id" (UrlFilterRule false false None (Some "id"))
         (Some 0).

(** The request with number [i] of a page. *)
Definition request (i : nat) : Request :=
  mkRequest "https://ads.example.org/a.js" "https://example.org/" "SCRIPT"
            None (Some (Z.of_nat i)).

End Demo.

(** ** Properties *)

Section Properties.
Context `{Adguard}.

(** *** The gate *)

(** C4: while no filtering-log page is opened ([openedFilteringLogsPage] is
    0), each of the three recording functions and each of the three binding
    functions returns the state it was given: no buffer is created or
    changed, the registry is the same and no notification is published. *)
Theorem gated_off_is_noop (st : State) :
  openedFilteringLogsPage st = 0 →
  isOpen st = false
  ∧ (∀ tab u f ty r id, addHttpRequestEvent tab u f ty r id st = st)
  ∧ (∀ tab el f ty r, addCosmeticEvent tab el f ty r st = st)
  ∧ (∀ tab n v d ty r m tp, addCookieEvent tab n v d ty r m tp st = st)
  ∧ (∀ tab r id, bindRuleToHttpRequestEvent tab r id st = st)
  ∧ (∀ tab rs id, bindReplaceRulesToHttpRequestEvent tab rs id st = st)
  ∧ (∀ tab a id, bindStealthActionsToHttpRequestEvent tab a id st = st).
Proof.
  intros Hgate.
  unfold isOpen, addHttpRequestEvent, addCosmeticEvent, addCookieEvent,
    bindRuleToHttpRequestEvent, bindReplaceRulesToHttpRequestEvent,
    bindStealthActionsToHttpRequestEvent, bindToHttpRequestEvent.
  rewrite Hgate.
  repeat split; intros; by case_decide.
Qed.

(** *** Closing a filtering-log page *)

Lemma lookup_closed (st : State) (id : Z) :
  openedFilteringLogsPage (onCloseFilteringLogPage st) = 0 →
  tabsInfoMap (onCloseFilteringLogPage st) !! id
  = deleteFilteringEvents <$> tabsInfoMap st !! id.
Proof.
  unfold onCloseFilteringLogPage.
  case_decide as Hz; simpl; [intros _ | done].
  by rewrite lookup_fmap.
Qed.


Lemma opened_closed (st : State) :
  openedFilteringLogsPage (onCloseFilteringLogPage st)
  = Z.max (openedFilteringLogsPage st - 1) 0.
Proof. unfold onCloseFilteringLogPage. by case_decide. Qed.


(** C6: when the page that closes is the last one, the counter is 0
    afterwards, and every tab that was registered is still returned by
    [getFilteringInfoByTabId], with the [tabId], [title] and
    [isExtensionTab] it had and with no buffer; no tab appears. *)
Theorem close_last_keeps_metadata (st : State) :
  openedFilteringLogsPage st = 1 →
  let st' := onCloseFilteringLogPage st in
  isOpen st' = false
  ∧ dom (tabsInfoMap st') = dom (tabsInfoMap st)
  ∧ ∀ id tabInfo,
      getFilteringInfoByTabId id st = Some tabInfo →
      ∃ tabInfo',
        getFilteringInfoByTabId id st' = Some tabInfo'
        ∧ tabId tabInfo' = tabId tabInfo
        ∧ title tabInfo' = title tabInfo
        ∧ isExtensionTab tabInfo' = isExtensionTab tabInfo
        ∧ filteringEvents tabInfo' = None.
Proof.
  intros Hone st'.
  assert (Hzero : openedFilteringLogsPage st' = 0).
  { subst st'. rewrite opened_closed, Hone. done. }
  split_and!.
  - unfold isOpen. rewrite Hzero. done.
  - apply set_eq. intros id. rewrite !elem_of_dom.
    subst st'. rewrite lookup_closed by done.
    by rewrite fmap_is_Some.
  - intros id tabInfo Hlook. unfold getFilteringInfoByTabId in *.
    subst st'. rewrite lookup_closed by done. rewrite Hlook.
    by eexists.
Qed.

(** *** Clearing one tab *)

(** C10: [clearEventsByTabId] does not read the counter of opened pages.
    For a tab that is registered, whatever the counter, the entry loses its
    buffer and keeps the rest, one [TAB_RESET] for it is published, and the
    counter and the other tabs stay as they were; for an id that is not
    registered the state is returned as it was. *)
Theorem clearEventsByTabId_ignores_gate (id : Z) (st : State) :
  (∀ tabInfo,
     tabsInfoMap st !! id = Some tabInfo →
     let st' := clearEventsByTabId id st in
     tabsInfoMap st'
     = <[id := deleteFilteringEvents tabInfo]> (tabsInfoMap st)
     ∧ bufferOf id st' = None
     ∧ notified st'
       = notified st ++ [TAB_RESET (deleteFilteringEvents tabInfo)]
     ∧ openedFilteringLogsPage st' = openedFilteringLogsPage st)
  ∧ (tabsInfoMap st !! id = None → clearEventsByTabId id st = st).
Proof.
  unfold clearEventsByTabId, bufferOf. split.
  - intros tabInfo ->. simpl. split_and!; try done.
    by rewrite lookup_insert_eq.
  - by intros ->.
Qed.

(** *** Recording *)

Lemma last_delete_1 {A} (l : list A) :
  (3 ≤ length l)%nat → last (delete 1%nat l) = last l.
Proof.
  destruct l as [|a [|b [|c l]]]; simpl; intros; try lia. done.
Qed.

Lemma last_pushBuffer (events : list FilteringEvent) (event : FilteringEvent) :
  last (pushBuffer events event) = Some event.
Proof.
  unfold pushBuffer. case_decide as Hlen.
  - rewrite last_delete_1 by lia. apply last_snoc.
  - apply last_snoc.
Qed.

Lemma pushFilteringEvent_eq (key : Z) (tabInfo : TabInfo)
    (event : FilteringEvent) (st : State) :
  let tabInfo' :=
    withFilteringEvents
      (Some (pushBuffer (default [] (filteringEvents tabInfo)) event))
      tabInfo in
  pushFilteringEvent key tabInfo event st
  = mkState (<[key := tabInfo']> (tabsInfoMap st))
            (openedFilteringLogsPage st)
            (notified st ++ [LOG_EVENT_ADDED tabInfo' event]).
Proof.
  unfold pushFilteringEvent, pushBuffer, notifyListeners, storeTabInfo,
    REQUESTS_SIZE_PER_TAB.
  by destruct (filteringEvents tabInfo).
Qed.

Lemma pushFilteringEvent_appended (key : Z) (tabInfo : TabInfo)
    (event : FilteringEvent) (st : State) :
  appended key event st (pushFilteringEvent key tabInfo event st).
Proof.
  rewrite pushFilteringEvent_eq. eexists. simpl. split_and!.
  - apply lookup_insert_eq.
  - simpl. apply last_pushBuffer.
  - done.
Qed.

Lemma appendProperties_snapshotOf (rule : Rule) :
  appendProperties emptyRule rule = snapshotOf rule.
Proof.
  unfold appendProperties, snapshotOf.
  destruct (rule_class rule) as [| |wl csp directive [cookie|]|]; try done.
Qed.

(** C9, as the code has it.  With a filtering-log page opened and the tab
    registered: a request or a cookie recorded with a rule puts at the end of
    the buffer an event whose [requestRule] is the snapshot of the rule
    (filter id, rule text and the fields of its variant, nothing else; a
    cookie event adds [isModifyingCookieRule]); recorded without a rule, the
    event is still put there and has no [requestRule].  An element recorded
    with a rule is stored in the same way; an element recorded without a
    rule leaves the state as it was. *)
Theorem records_embed_rule_snapshot (tab : Tab) (tabInfo : TabInfo)
    (st : State) :
  openedFilteringLogsPage st ≠ 0 →
  tabsInfoMap st !! tab_tabId tab = Some tabInfo →
  (∀ u f ty id rule,
     ∃ event,
       appended (tab_tabId tab) event st
                (addHttpRequestEvent tab u f ty (Some rule) id st)
       ∧ requestRule event = Some (snapshotOf rule))
  ∧ (∀ u f ty id,
       ∃ event,
         appended (tab_tabId tab) event st
                  (addHttpRequestEvent tab u f ty None id st)
         ∧ requestRule event = None)
  ∧ (∀ el f ty rule,
       ∃ event,
         appended (tab_tabId tab) event st
                  (addCosmeticEvent tab el f ty (Some rule) st)
         ∧ requestRule event = Some (snapshotOf rule))
  ∧ (∀ el f ty, addCosmeticEvent tab el f ty None st = st)
  ∧ (∀ n v d ty m tp rule,
       ∃ event,
         appended (tab_tabId tab) event st
                  (addCookieEvent tab n v d ty (Some rule) m tp st)
         ∧ requestRule event = Some (cookieSnapshotOf rule m))
  ∧ (∀ n v d ty m tp,
       ∃ event,
         appended (tab_tabId tab) event st
                  (addCookieEvent tab n v d ty None m tp st)
         ∧ requestRule event = None).
Proof.
  intros Hopen Hknown.
  unfold addHttpRequestEvent, addCosmeticEvent, addCookieEvent.
  rewrite Hknown.
  destruct (decide (openedFilteringLogsPage st = 0)) as [|_]; [done |].
  split_and!; intros; try done;
    (eexists; split; [apply pushFilteringEvent_appended |]).
  - simpl. by rewrite appendProperties_snapshotOf.
  - done.
  - simpl. by rewrite appendProperties_snapshotOf.
  - unfold cookieSnapshotOf. rewrite <- (appendProperties_snapshotOf rule).
    unfold setIsModifyingCookieRule, addRuleToFilteringEvent.
    simpl. by destruct (truthyNumber _), (rule_stealthActions rule).
  - done.
Qed.

(** *** The bound of a buffer and what is evicted *)

Lemma length_delete_1_snoc {A} (l : list A) (x : A) :
  (1 ≤ length l)%nat → length (delete 1%nat (l ++ [x])) = length l.
Proof.
  destruct l as [|a [|b l]]; simpl; intros; try lia; try done.
  rewrite length_app. simpl. lia.
Qed.

Lemma length_pushBuffer (events : list FilteringEvent)
    (event : FilteringEvent) :
  (length events ≤ 1000)%nat →
  (length (pushBuffer events event) ≤ 1000)%nat.
Proof.
  intros Hlen. unfold pushBuffer. case_decide as Hover.
  - rewrite length_app in Hover. simpl in Hover.
    rewrite length_delete_1_snoc; lia.
  - lia.
Qed.

Lemma pushBuffer_room (events : list FilteringEvent)
    (event : FilteringEvent) :
  (length events < 1000)%nat → pushBuffer events event = events ++ [event].
Proof.
  intros Hlen. unfold pushBuffer. rewrite decide_False; [done |].
  rewrite length_app. simpl. lia.
Qed.

Lemma pushBuffer_full (events : list FilteringEvent)
    (event : FilteringEvent) :
  (1000 ≤ length events)%nat →
  pushBuffer events event = delete 1%nat (events ++ [event]).
Proof.
  intros Hlen. unfold pushBuffer. rewrite decide_True; [done |].
  rewrite length_app. simpl. lia.
Qed.

Lemma fold_pushBuffer_room (events : list FilteringEvent) :
  (length events ≤ 1000)%nat → fold_left pushBuffer events [] = events.
Proof.
  induction events as [|event events IH] using rev_ind; [done |].
  rewrite length_app. simpl. intros Hlen.
  rewrite fold_left_app. simpl. rewrite IH by lia.
  apply pushBuffer_room. lia.
Qed.

Lemma fold_pushBuffer_1001 (first : FilteringEvent)
    (rest : list FilteringEvent) :
  length rest = 1000%nat →
  fold_left pushBuffer (first :: rest) [] = first :: tail rest.
Proof.
  intros Hlen.
  destruct rest as [|event rest _] using rev_ind.
  { simpl in Hlen. lia. }
  rewrite length_app in Hlen. simpl in Hlen.
  rewrite app_comm_cons, fold_left_app. simpl fold_left at 1.
  change (fold_left pushBuffer rest (pushBuffer [] first))
    with (fold_left pushBuffer (first :: rest) []).
  rewrite fold_pushBuffer_room by (simpl; lia).
  rewrite pushBuffer_full by (simpl; lia).
  destruct rest as [|second rest]; [simpl in Hlen; lia | done].
Qed.

Lemma recordRequest_eq (tab : Tab) (tabInfo : TabInfo) (r : Request)
    (st : State) :
  openedFilteringLogsPage st ≠ 0 →
  tabsInfoMap st !! tab_tabId tab = Some tabInfo →
  recordRequest tab st r
  = pushFilteringEvent (tab_tabId tab) tabInfo (requestEvent r) st.
Proof.
  intros Hopen Hknown. unfold recordRequest, addHttpRequestEvent.
  rewrite Hknown. rewrite decide_False by done.
  f_equal. unfold requestEvent.
  destruct (req_requestRule r) as [rule|]; simpl; [| done].
  unfold addRuleToFilteringEvent, withRequestRule. simpl.
  by rewrite appendProperties_snapshotOf.
Qed.

Lemma fold_recordRequest (tab : Tab) (requests : list Request) :
  ∀ (st : State) (tabInfo : TabInfo),
    openedFilteringLogsPage st ≠ 0 →
    tabsInfoMap st !! tab_tabId tab = Some tabInfo →
    requests ≠ [] →
    bufferOf (tab_tabId tab) (fold_left (recordRequest tab) requests st)
    = Some (fold_left pushBuffer (requestEvent <$> requests)
                      (default [] (filteringEvents tabInfo))).
Proof.
  induction requests as [|r requests IH]; [done |].
  intros st tabInfo Hopen Hknown _. simpl.
  rewrite (recordRequest_eq tab tabInfo) by done.
  rewrite pushFilteringEvent_eq.
  destruct requests as [|r' requests].
  - unfold bufferOf. simpl. by rewrite lookup_insert_eq.
  - erewrite IH; [| done | apply lookup_insert_eq | done]. done.
Qed.

(** C2: a push onto a buffer that holds 1000 events or more takes out the
    entry at index 1 and leaves the entry at index 0 where it is.  So, with a
    filtering-log page opened, 1001 requests recorded for a registered tab
    whose buffer is empty leave a buffer of 1000 events: the first request
    ever recorded at index 0, then all the others but the second. *)
Theorem overflow_evicts_index_1 (tab : Tab) (tabInfo : TabInfo) (st : State)
    (first : Request) (rest : list Request) :
  openedFilteringLogsPage st ≠ 0 →
  tabsInfoMap st !! tab_tabId tab = Some tabInfo →
  default [] (filteringEvents tabInfo) = [] →
  length rest = 1000%nat →
  (∀ key info events event st0,
     filteringEvents info = Some events →
     (1000 ≤ length events)%nat →
     let events' := delete 1%nat (events ++ [event]) in
     bufferOf key (pushFilteringEvent key info event st0) = Some events'
     ∧ events' !! 0%nat = events !! 0%nat
     ∧ length events' = length events)
  ∧ ∃ events,
      bufferOf (tab_tabId tab)
               (fold_left (recordRequest tab) (first :: rest) st)
      = Some events
      ∧ events !! 0%nat = Some (requestEvent first)
      ∧ length events = 1000%nat
      ∧ events = requestEvent first :: tail (requestEvent <$> rest).
Proof.
  intros Hopen Hknown Hempty Hlen. split.
  - intros key info events event st0 Hbuf Hfull events'.
    rewrite pushFilteringEvent_eq. unfold bufferOf. simpl.
    rewrite lookup_insert_eq. simpl. rewrite Hbuf. simpl.
    rewrite pushBuffer_full by done. split_and!; [done | |].
    + subst events'.
      destruct events as [|a [|b events]]; simpl in *; try lia; done.
    + subst events'. apply length_delete_1_snoc. lia.
  - eexists. split; [| split_and!].
    + rewrite (fold_recordRequest tab (first :: rest) st tabInfo) by done.
      rewrite Hempty. rewrite fmap_cons.
      rewrite fold_pushBuffer_1001 by (by rewrite length_fmap). done.
    + done.
    + simpl. rewrite length_tl, length_fmap. lia.
    + done.
Qed.

(** *** Binding to a recorded event *)

Lemma emitted_app (st st' : State) (ns : list Notification) :
  notified st' = notified st ++ ns → emitted st st' = ns.
Proof. unfold emitted. intros ->. apply drop_app_length. Qed.

Lemma bindLoop_none (mutate : FilteringEvent → FilteringEvent)
    (id : option Z) (events : list FilteringEvent) (n : nat) :
  (∀ j event, (j < n)%nat → events !! j = Some event → eventId event ≠ id) →
  bindLoop mutate id events n = None.
Proof.
  induction n as [|n IH]; intros Hnone; [done |]. simpl.
  destruct (events !! n) as [event|] eqn:Hev.
  - rewrite decide_False by (apply (Hnone n); [lia | done]).
    apply IH. intros j e Hj. apply Hnone. lia.
  - apply IH. intros j e Hj. apply Hnone. lia.
Qed.

Lemma bindLoop_latest (mutate : FilteringEvent → FilteringEvent)
    (id : option Z) (events : list FilteringEvent) (i : nat)
    (event : FilteringEvent) (n : nat) :
  (i < n)%nat →
  events !! i = Some event →
  eventId event = id →
  (∀ j later, (i < j)%nat → events !! j = Some later → eventId later ≠ id) →
  bindLoop mutate id events n
  = Some (<[i := mutate event]> events, mutate event).
Proof.
  intros Hi Hev Hid Hlater. induction n as [|n IH]; [lia |]. simpl.
  destruct (decide (i = n)) as [-> | Hne].
  - rewrite Hev. by rewrite decide_True.
  - destruct (events !! n) as [later|] eqn:Hn.
    + rewrite decide_False by (apply (Hlater n); [lia | done]).
      apply IH. lia.
    + apply IH. lia.
Qed.

Lemma bindToHttpRequestEvent_latest
    (mutate : FilteringEvent → FilteringEvent) (tab : Tab)
    (tabInfo : TabInfo) (events : list FilteringEvent) (i : nat)
    (event : FilteringEvent) (id : option Z) (st : State) :
  openedFilteringLogsPage st ≠ 0 →
  tabsInfoMap st !! tab_tabId tab = Some tabInfo →
  filteringEvents tabInfo = Some events →
  events !! i = Some event →
  eventId event = id →
  (∀ j later, (i < j)%nat → events !! j = Some later → eventId later ≠ id) →
  updatedAt (tab_tabId tab) tabInfo events i (mutate event) st
            (bindToHttpRequestEvent mutate tab id st).
Proof.
  intros Hopen Hknown Hbuf Hev Hid Hlater.
  unfold bindToHttpRequestEvent.
  rewrite decide_False by done. rewrite Hknown, Hbuf.
  rewrite (bindLoop_latest mutate id events i event) by
    (eauto using lookup_lt_Some).
  unfold updatedAt, bufferOf. simpl. split_and!.
  - done.
  - done.
  - by apply emitted_app.
  - by rewrite lookup_insert_eq.
  - apply list_lookup_insert_eq. by eapply lookup_lt_Some.
  - intros j Hj. by apply list_lookup_insert_ne.
Qed.

Lemma bindToHttpRequestEvent_no_match
    (mutate : FilteringEvent → FilteringEvent) (tab : Tab)
    (tabInfo : TabInfo) (events : list FilteringEvent) (id : option Z)
    (st : State) :
  tabsInfoMap st !! tab_tabId tab = Some tabInfo →
  filteringEvents tabInfo = Some events →
  (∀ j event, events !! j = Some event → eventId event ≠ id) →
  bindToHttpRequestEvent mutate tab id st = st.
Proof.
  intros Hknown Hbuf Hnone. unfold bindToHttpRequestEvent.
  case_decide; [done |]. rewrite Hknown, Hbuf.
  rewrite bindLoop_none; [done |]. intros j event _. apply Hnone.
Qed.

Lemma fold_appendProperties (rules : list Rule) (acc : list RuleSnapshot) :
  fold_left (λ acc replaceRule,
               acc ++ [appendProperties emptyRule replaceRule])
            rules acc
  = acc ++ (snapshotOf <$> rules).
Proof.
  revert acc. induction rules as [|rule rules IH]; intros acc.
  { simpl. by rewrite app_nil_r. }
  simpl. rewrite IH, appendProperties_snapshotOf, <- app_assoc. done.
Qed.

Lemma addRuleToFilteringEvent_eq (event : FilteringEvent) (rule : Rule) :
  addRuleToFilteringEvent event rule = eventWithRule rule event.
Proof.
  unfold addRuleToFilteringEvent, withRequestRule, eventWithRule.
  by rewrite appendProperties_snapshotOf.
Qed.

Lemma addReplaceRulesToFilteringEvent_eq (event : FilteringEvent)
    (rules : list Rule) :
  addReplaceRulesToFilteringEvent event rules
  = eventWithReplaceRules rules event.
Proof.
  unfold addReplaceRulesToFilteringEvent, withReplaceRules, withRequestRule,
    eventWithReplaceRules.
  simpl. by rewrite fold_appendProperties.
Qed.

(** C3: with a filtering-log page opened and the tab registered, let [i] be
    the highest index of the tab's buffer whose event has the [eventId]
    asked for, as the scan from the end finds it.  Then each of
    [bindRuleToHttpRequestEvent], [bindReplaceRulesToHttpRequestEvent] and
    [bindStealthActionsToHttpRequestEvent] changes the entry at [i] and no
    other entry (an older event with the same [eventId] stays as it was),
    and publishes exactly one [LOG_EVENT_UPDATED], for that event.  What
    the entry becomes: binding a rule sets [requestRule] to the snapshot of
    the rule; binding replace rules sets [requestRule] to an object that
    only says [replaceRule] and [replaceRules] to the snapshots of the
    rules, in their order; binding stealth actions sets [stealthActions] to
    the number given; no other field of the event changes. *)
Theorem binding_updates_latest_match (tab : Tab) (tabInfo : TabInfo)
    (events : list FilteringEvent) (i : nat) (event : FilteringEvent)
    (id : option Z) (st : State) :
  openedFilteringLogsPage st ≠ 0 →
  tabsInfoMap st !! tab_tabId tab = Some tabInfo →
  filteringEvents tabInfo = Some events →
  events !! i = Some event →
  eventId event = id →
  (∀ j later, (i < j)%nat → events !! j = Some later → eventId later ≠ id) →
  (∀ rule,
     updatedAt (tab_tabId tab) tabInfo events i
               (eventWithRule rule event) st
               (bindRuleToHttpRequestEvent tab rule id st))
  ∧ (∀ rules,
       updatedAt (tab_tabId tab) tabInfo events i
                 (eventWithReplaceRules rules event) st
                 (bindReplaceRulesToHttpRequestEvent tab rules id st))
  ∧ (∀ actions,
       updatedAt (tab_tabId tab) tabInfo events i
                 (eventWithActions actions event) st
                 (bindStealthActionsToHttpRequestEvent tab actions id st))
  ∧ (∀ j older,
       (j < i)%nat → events !! j = Some older → eventId older = id →
       (∀ rule,
          bufferOf (tab_tabId tab)
                   (bindRuleToHttpRequestEvent tab rule id st)
          ≫= (.!! j) = Some older)
       ∧ (∀ rules,
            bufferOf (tab_tabId tab)
                     (bindReplaceRulesToHttpRequestEvent tab rules id st)
            ≫= (.!! j) = Some older)
       ∧ (∀ actions,
            bufferOf (tab_tabId tab)
                     (bindStealthActionsToHttpRequestEvent tab actions id st)
            ≫= (.!! j) = Some older)).
Proof.
  intros Hopen Hknown Hbuf Hev Hid Hlater.
  assert (Hbind : ∀ mutate,
            updatedAt (tab_tabId tab) tabInfo events i (mutate event) st
                      (bindToHttpRequestEvent mutate tab id st))
    by (intros mutate; by apply bindToHttpRequestEvent_latest).
  assert (Holder : ∀ mutate j older,
            (j < i)%nat → events !! j = Some older →
            bufferOf (tab_tabId tab) (bindToHttpRequestEvent mutate tab id st)
            ≫= (.!! j) = Some older).
  { intros mutate j older Hj Hold.
    destruct (Hbind mutate) as (_ & _ & _ & Hb & _ & Hothers).
    rewrite Hb. simpl. rewrite Hothers by lia. done. }
  unfold bindRuleToHttpRequestEvent, bindReplaceRulesToHttpRequestEvent,
    bindStealthActionsToHttpRequestEvent.
  split_and!.
  - intros rule. rewrite <- addRuleToFilteringEvent_eq.
    apply (Hbind (λ e, addRuleToFilteringEvent e rule)).
  - intros rules. rewrite <- addReplaceRulesToFilteringEvent_eq.
    apply (Hbind (λ e, addReplaceRulesToFilteringEvent e rules)).
  - intros actions. apply (Hbind (withStealthActions actions)).
  - intros j older Hj Hold _. split_and!; intros; by apply Holder.
Qed.

(** *** The bound as an invariant of the module *)

Lemma buffersBounded_notify (n : Notification) (st : State) :
  buffersBounded st → buffersBounded (notifyListeners n st).
Proof. done. Qed.

Lemma buffersBounded_store (key : Z) (tabInfo : TabInfo) (st : State) :
  (length (default [] (filteringEvents tabInfo)) ≤ 1000)%nat →
  buffersBounded st → buffersBounded (storeTabInfo key tabInfo st).
Proof. intros Hlen Hst. by apply map_Forall_insert_2. Qed.

Lemma buffersBounded_lookup (id : Z) (tabInfo : TabInfo) (st : State) :
  buffersBounded st → tabsInfoMap st !! id = Some tabInfo →
  (length (default [] (filteringEvents tabInfo)) ≤ 1000)%nat.
Proof. intros Hst Hlook. by apply (Hst id). Qed.

Lemma buffersBounded_updateTabInfo (tab : Tab) (st : State) :
  buffersBounded st → buffersBounded (updateTabInfo tab st).2.
Proof.
  intros Hst. unfold updateTabInfo. simpl.
  apply buffersBounded_store; [| done]. simpl.
  destruct (tabsInfoMap st !! tab_tabId tab) as [tabInfo|] eqn:Hlook.
  - by eapply buffersBounded_lookup.
  - simpl. lia.
Qed.

Lemma buffersBounded_addTab (tab : Tab) (st : State) :
  buffersBounded st → buffersBounded (addTab tab st).
Proof.
  intros Hst. unfold addTab. case_decide; [done |].
  by apply (buffersBounded_updateTabInfo tab).
Qed.

Lemma buffersBounded_updateTab (tab : Tab) (st : State) :
  buffersBounded st → buffersBounded (updateTab tab st).
Proof.
  intros Hst. unfold updateTab. case_decide; [done |].
  by apply (buffersBounded_updateTabInfo tab).
Qed.

Lemma buffersBounded_removeTabById (id : Z) (st : State) :
  buffersBounded st → buffersBounded (removeTabById id st).
Proof.
  intros Hst. unfold removeTabById. case_decide; [done |].
  unfold buffersBounded. simpl.
  destruct (tabsInfoMap st !! id); by apply map_Forall_delete.
Qed.

Lemma buffersBounded_push (key : Z) (tabInfo : TabInfo)
    (event : FilteringEvent) (st : State) :
  (length (default [] (filteringEvents tabInfo)) ≤ 1000)%nat →
  buffersBounded st →
  buffersBounded (pushFilteringEvent key tabInfo event st).
Proof.
  intros Hlen Hst. rewrite pushFilteringEvent_eq.
  apply map_Forall_insert_2; [| done]. simpl.
  by apply length_pushBuffer.
Qed.

Lemma bindLoop_length (mutate : FilteringEvent → FilteringEvent)
    (id : option Z) (events events' : list FilteringEvent)
    (event' : FilteringEvent) (n : nat) :
  bindLoop mutate id events n = Some (events', event') →
  length events' = length events.
Proof.
  induction n as [|n IH]; [done |]. simpl.
  destruct (events !! n) as [event|]; [| done].
  case_decide; [| done].
  intros [= <- _]. apply length_insert.
Qed.

Lemma buffersBounded_bind (mutate : FilteringEvent → FilteringEvent)
    (tab : Tab) (id : option Z) (st : State) :
  buffersBounded st →
  buffersBounded (bindToHttpRequestEvent mutate tab id st).
Proof.
  intros Hst. unfold bindToHttpRequestEvent. case_decide; [done |].
  destruct (tabsInfoMap st !! tab_tabId tab) as [tabInfo|] eqn:Hlook;
    [| done].
  destruct (filteringEvents tabInfo) as [events|] eqn:Hbuf; [| done].
  destruct (bindLoop _ _ _ _) as [[events' event']|] eqn:Hloop; [| done].
  apply buffersBounded_notify, buffersBounded_store; [| done]. simpl.
  rewrite (bindLoop_length _ _ _ _ _ _ Hloop).
  pose proof (buffersBounded_lookup _ _ _ Hst Hlook) as Hlen.
  by rewrite Hbuf in Hlen.
Qed.

Lemma buffersBounded_synchronizeOpenTab (acc : State * list Z) (tab : Tab) :
  buffersBounded acc.1 → buffersBounded (synchronizeOpenTab acc tab).1.
Proof.
  destruct acc as [st ids]. simpl. intros Hst.
  destruct (tabsInfoMap st !! tab_tabId tab);
    [by apply buffersBounded_updateTab | by apply buffersBounded_addTab].
Qed.

Lemma buffersBounded_sync (tabs : list Tab) (st : State) :
  buffersBounded st → buffersBounded (synchronizeOpenTabs tabs st).
Proof.
  unfold synchronizeOpenTabs. generalize (tabsInfoMapKeys st).
  intros ids Hst.
  assert (Hloop : ∀ acc, buffersBounded acc.1 →
            buffersBounded (fold_left synchronizeOpenTab tabs acc).1).
  { induction tabs as [|tab tabs IH]; [done |].
    intros acc Hacc. simpl.
    by apply IH, buffersBounded_synchronizeOpenTab. }
  specialize (Hloop (st, ids) Hst).
  destruct (fold_left synchronizeOpenTab tabs (st, ids)) as [st1 ids1].
  simpl in Hloop. clear Hst. revert st1 Hloop.
  induction ids1 as [|id ids1 IH]; [done |].
  intros st1 Hst1. simpl. by apply IH, buffersBounded_removeTabById.
Qed.

Lemma buffersBounded_step (st : State) (c : Call) :
  buffersBounded st → buffersBounded (step st c).
Proof.
  intros Hst.
  destruct c as [tabs | tab | tab | tab | tab u f ty rule eid
                | tab el f ty rule | tab n v d ty rule m tp | tab rule eid
                | tab rules eid | tab actions eid | id | |]; simpl.
  - by apply buffersBounded_sync.
  - by apply buffersBounded_addTab.
  - by apply buffersBounded_updateTab.
  - by apply buffersBounded_removeTabById.
  - unfold addHttpRequestEvent. case_decide; [done |].
    destruct (tabsInfoMap st !! tab_tabId tab) eqn:Hlook; [| done].
    apply buffersBounded_push; [by eapply buffersBounded_lookup | done].
  - unfold addCosmeticEvent. case_decide; [done |].
    destruct rule; [| done].
    destruct (tabsInfoMap st !! tab_tabId tab) eqn:Hlook; [| done].
    apply buffersBounded_push; [by eapply buffersBounded_lookup | done].
  - unfold addCookieEvent. case_decide; [done |].
    destruct (tabsInfoMap st !! tab_tabId tab) eqn:Hlook; [| done].
    apply buffersBounded_push; [by eapply buffersBounded_lookup | done].
  - by apply buffersBounded_bind.
  - by apply buffersBounded_bind.
  - by apply buffersBounded_bind.
  - unfold clearEventsByTabId.
    destruct (tabsInfoMap st !! id) eqn:Hlook; [| done].
    apply buffersBounded_notify, buffersBounded_store; [simpl; lia | done].
  - done.
  - unfold onCloseFilteringLogPage. case_decide; [| done].
    unfold buffersBounded. simpl. apply map_Forall_fmap.
    intros id tabInfo _. simpl. lia.
Qed.

Lemma buffersBounded_run (calls : list Call) (st : State) :
  buffersBounded st → buffersBounded (run st calls).
Proof.
  revert st. induction calls as [|c calls IH]; [done |].
  intros st Hst. simpl. by apply IH, buffersBounded_step.
Qed.

Lemma buffersBounded_initialState : buffersBounded initialState.
Proof.
  unfold buffersBounded, initialState. simpl.
  destruct hasBackgroundTab.
  - apply map_Forall_singleton. simpl. lia.
  - apply map_Forall_empty.
Qed.

(** C1: after any sequence of calls of the module from its initial state
    (the recording functions, and every other function it offers), the
    buffer of whatever tab has one holds at most 1000 events, and it is the
    only buffer of that tab. *)
Theorem buffer_holds_at_most_1000 (calls : list Call) (id : Z)
    (tabInfo : TabInfo) (events : list FilteringEvent) :
  getFilteringInfoByTabId id (run initialState calls) = Some tabInfo →
  filteringEvents tabInfo = Some events →
  (length events ≤ 1000)%nat
  ∧ ∀ events',
      bufferOf id (run initialState calls) = Some events' →
      events' = events.
Proof.
  intros Hlook Hbuf. split.
  - pose proof (buffersBounded_run calls _ buffersBounded_initialState)
      as Hinv.
    pose proof (buffersBounded_lookup _ _ _ Hinv Hlook) as Hlen.
    by rewrite Hbuf in Hlen.
  - unfold bufferOf. unfold getFilteringInfoByTabId in Hlook.
    rewrite Hlook. simpl. rewrite Hbuf. by intros ? [= ->].
Qed.

(** *** The background tab *)

Lemma lookup_updateTabInfo_ne (tab : Tab) (st : State) (k : Z) :
  k ≠ tab_tabId tab →
  tabsInfoMap (updateTabInfo tab st).2 !! k = tabsInfoMap st !! k.
Proof. intros Hne. simpl. by rewrite lookup_insert_ne. Qed.

Lemma lookup_addTab_ne (tab : Tab) (st : State) (k : Z) :
  k = backgroundTabId ∨ k ≠ tab_tabId tab →
  tabsInfoMap (addTab tab st) !! k = tabsInfoMap st !! k.
Proof.
  intros Hk. unfold addTab. case_decide as Hbg; [done |].
  simpl. rewrite lookup_insert_ne; [done |].
  intros Heq. destruct Hk as [Hk | Hk]; congruence.
Qed.

Lemma lookup_updateTab_ne (tab : Tab) (st : State) (k : Z) :
  k = backgroundTabId ∨ k ≠ tab_tabId tab →
  tabsInfoMap (updateTab tab st) !! k = tabsInfoMap st !! k.
Proof.
  intros Hk. unfold updateTab. case_decide as Hbg; [done |].
  simpl. rewrite lookup_insert_ne; [done |].
  intros Heq. destruct Hk as [Hk | Hk]; congruence.
Qed.

Lemma tabsInfoMap_removeTabById (id : Z) (st : State) :
  tabsInfoMap (removeTabById id st)
  = if decide (id = backgroundTabId) then tabsInfoMap st
    else delete id (tabsInfoMap st).
Proof.
  unfold removeTabById. case_decide; [done |].
  by destruct (tabsInfoMap st !! id).
Qed.

Lemma lookup_removeTabById_ne (id : Z) (st : State) (k : Z) :
  k = backgroundTabId ∨ k ≠ id →
  tabsInfoMap (removeTabById id st) !! k = tabsInfoMap st !! k.
Proof.
  intros Hk. rewrite tabsInfoMap_removeTabById. case_decide; [done |].
  rewrite lookup_delete_ne; [done |].
  intros Heq. destruct Hk as [Hk | Hk]; congruence.
Qed.

Lemma lookup_background_synchronizeOpenTab (acc : State * list Z)
    (tab : Tab) :
  tabsInfoMap (synchronizeOpenTab acc tab).1 !! backgroundTabId
  = tabsInfoMap acc.1 !! backgroundTabId.
Proof.
  destruct acc as [st ids]. simpl.
  destruct (tabsInfoMap st !! tab_tabId tab);
    [apply lookup_updateTab_ne | apply lookup_addTab_ne]; by left.
Qed.

Lemma lookup_background_sync (tabs : list Tab) (st : State) :
  tabsInfoMap (synchronizeOpenTabs tabs st) !! backgroundTabId
  = tabsInfoMap st !! backgroundTabId.
Proof.
  unfold synchronizeOpenTabs. generalize (tabsInfoMapKeys st). intros ids.
  assert (Hloop : ∀ acc,
            tabsInfoMap (fold_left synchronizeOpenTab tabs acc).1
              !! backgroundTabId
            = tabsInfoMap acc.1 !! backgroundTabId).
  { induction tabs as [|tab tabs IH]; [done |].
    intros acc. simpl.
    by rewrite IH, lookup_background_synchronizeOpenTab. }
  specialize (Hloop (st, ids)).
  destruct (fold_left synchronizeOpenTab tabs (st, ids)) as [st1 ids1].
  simpl in Hloop. rewrite <- Hloop. clear Hloop. revert st1.
  induction ids1 as [|id ids1 IH]; [done |].
  intros st1. simpl. rewrite IH. apply lookup_removeTabById_ne. by left.
Qed.

(** C8: [addTab] and [updateTab] of a tab whose id is the background tab
    id, and [removeTabById] of that id, return the state as it was, so the
    registry is the same and nothing is published.  And whatever sequence of
    sweeps and of tab events runs, for whatever tabs, the entry of the
    registry under the background tab id is the same entry afterwards. *)
Theorem background_tab_is_exempt (st : State) :
  (∀ title url, addTab (mkTab backgroundTabId title url) st = st)
  ∧ (∀ title url, updateTab (mkTab backgroundTabId title url) st = st)
  ∧ removeTabById backgroundTabId st = st
  ∧ ∀ calls : list RegistryCall,
      getFilteringInfoByTabId backgroundTabId
                              (run st (registryCall <$> calls))
      = getFilteringInfoByTabId backgroundTabId st.
Proof.
  split_and!.
  - intros. unfold addTab. simpl. by rewrite decide_True.
  - intros. unfold updateTab. simpl. by rewrite decide_True.
  - unfold removeTabById. by rewrite decide_True.
  - intros calls. unfold getFilteringInfoByTabId. revert st.
    induction calls as [|c calls IH]; [done |].
    intros st. rewrite fmap_cons. unfold run in *. simpl. rewrite IH.
    destruct c; simpl.
    + apply lookup_background_sync.
    + apply lookup_addTab_ne. by left.
    + apply lookup_updateTab_ne. by left.
    + apply lookup_removeTabById_ne. by left.
Qed.

(** *** A sweep over the open tabs *)

Lemma elem_of_tabsInfoMapKeys (st : State) (k : Z) :
  k ∈ tabsInfoMapKeys st ↔ is_Some (tabsInfoMap st !! k).
Proof.
  unfold tabsInfoMapKeys. rewrite list_elem_of_fmap. split.
  - intros [[k' tabInfo] [-> Hin]]. apply elem_of_map_to_list in Hin.
    by eexists.
  - intros [tabInfo Hlook]. exists (k, tabInfo). split; [done |].
    by apply elem_of_map_to_list.
Qed.

Lemma splice_indexOf (id : Z) (ids : list Z) :
  NoDup ids →
  let ids' :=
    match indexOf id ids with
    | Some index => delete index ids
    | None => ids
    end in
  NoDup ids' ∧ ∀ k, k ∈ ids' ↔ k ∈ ids ∧ k ≠ id.
Proof.
  induction ids as [|x ids IH]; intros Hnd; simpl.
  { split; [done |]. intros k. rewrite elem_of_nil. tauto. }
  apply NoDup_cons in Hnd as [Hx Hnd]. specialize (IH Hnd).
  case_decide as Hxid.
  - subst x. simpl. split; [done |].
    intros k. rewrite elem_of_cons. split; [| tauto].
    intros Hk. split; [tauto |]. by intros ->.
  - destruct (indexOf id ids) as [index|]; simpl in *.
    + destruct IH as [Hnd' Hmem]. split.
      * apply NoDup_cons. split; [| done]. rewrite Hmem. tauto.
      * intros k. rewrite !elem_of_cons, Hmem. split; [| tauto].
        intros [-> | ?]; tauto.
    + destruct IH as [_ Hmem]. split.
      * by apply NoDup_cons.
      * intros k. rewrite elem_of_cons. split; [| tauto].
        intros [-> | Hk]; [tauto |]. split; [tauto |].
        apply Hmem in Hk. tauto.
Qed.

Lemma ids_fold_synchronizeOpenTab (tabs : list Tab) :
  ∀ acc : State * list Z,
    NoDup acc.2 →
    ∀ k, k ∈ (fold_left synchronizeOpenTab tabs acc).2
         ↔ k ∈ acc.2 ∧ k ∉ tab_tabId <$> tabs.
Proof.
  induction tabs as [|tab tabs IH]; intros [st ids] Hnd k.
  { simpl. rewrite elem_of_nil. tauto. }
  simpl in Hnd. destruct (splice_indexOf (tab_tabId tab) ids Hnd)
    as [Hnd' Hmem].
  simpl fold_left. rewrite IH by done. simpl.
  rewrite Hmem, not_elem_of_cons. tauto.
Qed.

Lemma lookup_synchronizeOpenTab (acc : State * list Z) (tab : Tab) (k : Z) :
  is_Some (tabsInfoMap (synchronizeOpenTab acc tab).1 !! k)
  ↔ is_Some (tabsInfoMap acc.1 !! k)
    ∨ (k = tab_tabId tab ∧ k ≠ backgroundTabId).
Proof.
  destruct acc as [st ids]. simpl.
  destruct (decide (tab_tabId tab = backgroundTabId)) as [Hbg | Hbg].
  - unfold addTab, updateTab. rewrite !decide_True by done.
    destruct (tabsInfoMap st !! tab_tabId tab); split;
      try tauto; intros [? | [-> ?]]; done.
  - destruct (tabsInfoMap st !! tab_tabId tab) as [tabInfo|] eqn:Hlook;
      unfold addTab, updateTab; rewrite decide_False by done; simpl;
      rewrite lookup_insert_is_Some; split.
    + intros [<- | [_ ?]]; [right | left]; done.
    + intros [? | [-> _]]; [| by left].
      destruct (decide (tab_tabId tab = k)); [by left | by right].
    + intros [<- | [_ ?]]; [right | left]; done.
    + intros [? | [-> _]]; [| by left].
      destruct (decide (tab_tabId tab = k)); [by left | by right].
Qed.

Lemma lookup_fold_synchronizeOpenTab (tabs : list Tab) :
  ∀ (acc : State * list Z) (k : Z),
    is_Some (tabsInfoMap (fold_left synchronizeOpenTab tabs acc).1 !! k)
    ↔ is_Some (tabsInfoMap acc.1 !! k)
      ∨ (k ∈ tab_tabId <$> tabs ∧ k ≠ backgroundTabId).
Proof.
  induction tabs as [|tab tabs IH]; intros acc k.
  { simpl. rewrite elem_of_nil. tauto. }
  simpl fold_left. rewrite IH, lookup_synchronizeOpenTab.
  rewrite fmap_cons, elem_of_cons. tauto.
Qed.

Lemma lookup_fold_removeTabById (ids : list Z) :
  ∀ (st : State) (k : Z),
    is_Some (tabsInfoMap (fold_left (λ st id, removeTabById id st) ids st)
               !! k)
    ↔ is_Some (tabsInfoMap st !! k) ∧ (k = backgroundTabId ∨ k ∉ ids).
Proof.
  induction ids as [|id ids IH]; intros st k.
  { simpl. rewrite elem_of_nil. tauto. }
  simpl. rewrite IH, tabsInfoMap_removeTabById, not_elem_of_cons.
  case_decide as Hbg.
  - subst id. destruct (decide (k = backgroundTabId)); tauto.
  - rewrite lookup_delete_is_Some.
    destruct (decide (k = backgroundTabId)) as [-> | Hk];
      [| intuition congruence].
    split; [tauto |]. intros [? _]. split_and!; try done; by left.
Qed.

(** The registry after a sweep: the open tabs but the background tab are
    registered, and nothing else is, but may be the background tab. *)
Lemma lookup_synchronizeOpenTabs (tabs : list Tab) (st : State) (k : Z) :
  is_Some (tabsInfoMap (synchronizeOpenTabs tabs st) !! k)
  ↔ (k ≠ backgroundTabId ∧ k ∈ tab_tabId <$> tabs)
    ∨ (k = backgroundTabId ∧ is_Some (tabsInfoMap st !! k)).
Proof.
  unfold synchronizeOpenTabs.
  pose proof (ids_fold_synchronizeOpenTab tabs (st, tabsInfoMapKeys st)
                (NoDup_fst_map_to_list _)) as Hids.
  pose proof (lookup_fold_synchronizeOpenTab tabs (st, tabsInfoMapKeys st))
    as Hmap.
  destruct (fold_left synchronizeOpenTab tabs (st, tabsInfoMapKeys st))
    as [st1 ids1].
  simpl in Hids, Hmap.
  rewrite lookup_fold_removeTabById, Hmap, Hids, elem_of_tabsInfoMapKeys.
  destruct (decide (k = backgroundTabId)) as [Hbg | Hbg];
    destruct (decide (k ∈ tab_tabId <$> tabs)); tauto.
Qed.

Lemma bufferOf_synchronizeOpenTab (acc : State * list Z) (tab : Tab)
    (k : Z) :
  bufferOf k (synchronizeOpenTab acc tab).1 = bufferOf k acc.1.
Proof.
  destruct acc as [st ids]. unfold bufferOf. simpl.
  destruct (tabsInfoMap st !! tab_tabId tab) as [tabInfo|] eqn:Hlook;
    unfold addTab, updateTab; case_decide; try done; simpl;
    (destruct (decide (k = tab_tabId tab)) as [-> | Hne];
     [rewrite lookup_insert_eq, Hlook | rewrite lookup_insert_ne by done]);
    done.
Qed.

Lemma refreshed_synchronizeOpenTab (acc : State * list Z) (tab tab' : Tab) :
  refreshed (synchronizeOpenTab acc tab).1 tab' = refreshed acc.1 tab'.
Proof. unfold refreshed. by rewrite bufferOf_synchronizeOpenTab. Qed.

Lemma notified_synchronizeOpenTab (acc : State * list Z) (tab : Tab) :
  tab_tabId tab = backgroundTabId
  ∨ is_Some (tabsInfoMap acc.1 !! tab_tabId tab) →
  notified (synchronizeOpenTab acc tab).1
  = notified acc.1 ++ (refreshed acc.1 <$> foreground [tab]).
Proof.
  destruct acc as [st ids]. simpl. intros Hknown.
  unfold foreground. rewrite filter_cons, filter_nil.
  unfold addTab, updateTab.
  destruct (decide (tab_tabId tab = backgroundTabId)) as [Hbg | Hbg].
  - rewrite decide_False by tauto. simpl. rewrite app_nil_r.
    by destruct (tabsInfoMap st !! tab_tabId tab).
  - rewrite decide_True by done.
    destruct Hknown as [? | [tabInfo Hlook]]; [done |].
    unfold updateTabInfo. simpl. rewrite Hlook.
    unfold refreshed, bufferOf. by rewrite Hlook.
Qed.

Lemma notified_fold_synchronizeOpenTab (tabs : list Tab) :
  ∀ acc : State * list Z,
    (∀ tab, tab ∈ tabs → tab_tabId tab ≠ backgroundTabId →
            is_Some (tabsInfoMap acc.1 !! tab_tabId tab)) →
    notified (fold_left synchronizeOpenTab tabs acc).1
    = notified acc.1 ++ (refreshed acc.1 <$> foreground tabs).
Proof.
  induction tabs as [|tab tabs IH]; intros acc Hknown.
  { simpl. by rewrite app_nil_r. }
  simpl fold_left. rewrite IH.
  - rewrite notified_synchronizeOpenTab.
    + rewrite <- app_assoc. f_equal.
      change (tab :: tabs) with ([tab] ++ tabs).
      unfold foreground. rewrite filter_app, fmap_app. f_equal.
      apply list_fmap_ext. intros _ tab' _.
      apply refreshed_synchronizeOpenTab.
    + destruct (decide (tab_tabId tab = backgroundTabId)); [by left |].
      right. apply Hknown; [left | done].
  - intros tab' Hin Hbg. apply lookup_synchronizeOpenTab. left.
    apply Hknown; [by right | done].
Qed.

Lemma fold_removeTabById_background (ids : list Z) (st : State) :
  (∀ k, k ∈ ids → k = backgroundTabId) →
  fold_left (λ st id, removeTabById id st) ids st = st.
Proof.
  induction ids as [|id ids IH]; [done |]. intros Hall. simpl.
  unfold removeTabById at 2. rewrite decide_True by (apply Hall; left).
  apply IH. intros k Hk. apply Hall. by right.
Qed.

Lemma filter_refreshed (P : Notification → bool) (st : State)
    (tabs : list Tab) :
  (∀ tabInfo, P (TAB_UPDATE tabInfo) = false) →
  filter P (refreshed st <$> tabs) = [].
Proof.
  intros HP. induction tabs as [|tab tabs IH]; [done |].
  rewrite fmap_cons, filter_cons, IH. unfold refreshed. by rewrite HP.
Qed.

(** C7: a sweep that follows a sweep with the same list of open tabs
    publishes no [TAB_ADDED] and no [TAB_CLOSE]: it publishes one
    [TAB_UPDATE] for each tab of the list that is not the background tab, in
    the order of the list, and nothing else, and the registered ids are the
    same before and after. *)
Theorem second_sweep_only_updates (tabs : list Tab) (st : State) :
  let st1 := synchronizeOpenTabs tabs st in
  let st2 := synchronizeOpenTabs tabs st1 in
  filter isTabAdded (emitted st1 st2) = []
  ∧ filter isTabClose (emitted st1 st2) = []
  ∧ emitted st1 st2 = refreshed st1 <$> foreground tabs
  ∧ dom (tabsInfoMap st2) = dom (tabsInfoMap st1).
Proof.
  intros st1 st2.
  assert (Hemit : emitted st1 st2 = refreshed st1 <$> foreground tabs).
  { apply emitted_app. subst st2. unfold synchronizeOpenTabs at 1.
    pose proof (ids_fold_synchronizeOpenTab tabs (st1, tabsInfoMapKeys st1)
                  (NoDup_fst_map_to_list _)) as Hids.
    pose proof (notified_fold_synchronizeOpenTab tabs
                  (st1, tabsInfoMapKeys st1)) as Hnote.
    destruct (fold_left synchronizeOpenTab tabs (st1, tabsInfoMapKeys st1))
      as [st' ids'].
    simpl in Hids, Hnote.
    rewrite fold_removeTabById_background.
    - apply Hnote. intros tab Hin Hbg. subst st1.
      apply lookup_synchronizeOpenTabs. left. split; [done |].
      apply list_elem_of_fmap. by exists tab.
    - intros k [Hk Hfresh]%Hids.
      apply elem_of_tabsInfoMapKeys in Hk. subst st1.
      apply lookup_synchronizeOpenTabs in Hk. tauto. }
  rewrite Hemit. split_and!.
  - by apply filter_refreshed.
  - by apply filter_refreshed.
  - done.
  - apply set_eq. intros k. rewrite !elem_of_dom. subst st2.
    rewrite lookup_synchronizeOpenTabs. subst st1.
    rewrite lookup_synchronizeOpenTabs.
    destruct (decide (k = backgroundTabId)); tauto.
Qed.

(** ** Further properties of the module *)

(** *** What the calls do to the counter *)

Lemma opened_addTab (tab : Tab) (st : State) :
  openedFilteringLogsPage (addTab tab st) = openedFilteringLogsPage st.
Proof. unfold addTab. by case_decide. Qed.

Lemma opened_updateTab (tab : Tab) (st : State) :
  openedFilteringLogsPage (updateTab tab st) = openedFilteringLogsPage st.
Proof. unfold updateTab. by case_decide. Qed.

Lemma opened_removeTabById (id : Z) (st : State) :
  openedFilteringLogsPage (removeTabById id st) = openedFilteringLogsPage st.
Proof.
  unfold removeTabById. case_decide; [done |].
  by destruct (tabsInfoMap st !! id).
Qed.

Lemma opened_synchronizeOpenTab (acc : State * list Z) (tab : Tab) :
  openedFilteringLogsPage (synchronizeOpenTab acc tab).1
  = openedFilteringLogsPage acc.1.
Proof.
  destruct acc as [st ids]. simpl.
  destruct (tabsInfoMap st !! tab_tabId tab);
    [apply opened_updateTab | apply opened_addTab].
Qed.

Lemma opened_fold_removeTabById (ids : list Z) (st : State) :
  openedFilteringLogsPage (fold_left (λ st id, removeTabById id st) ids st)
  = openedFilteringLogsPage st.
Proof.
  revert st. induction ids as [|id ids IH]; [done |].
  intros st. simpl. by rewrite IH, opened_removeTabById.
Qed.

Lemma opened_synchronizeOpenTabs (tabs : list Tab) (st : State) :
  openedFilteringLogsPage (synchronizeOpenTabs tabs st)
  = openedFilteringLogsPage st.
Proof.
  unfold synchronizeOpenTabs. generalize (tabsInfoMapKeys st). intros ids.
  assert (Hloop : ∀ acc,
            openedFilteringLogsPage (fold_left synchronizeOpenTab tabs acc).1
            = openedFilteringLogsPage acc.1).
  { induction tabs as [|tab tabs IH]; [done |].
    intros acc. simpl. by rewrite IH, opened_synchronizeOpenTab. }
  specialize (Hloop (st, ids)).
  destruct (fold_left synchronizeOpenTab tabs (st, ids)) as [st1 ids1].
  simpl in Hloop. by rewrite opened_fold_removeTabById.
Qed.

Lemma opened_bind (mutate : FilteringEvent → FilteringEvent) (tab : Tab)
    (id : option Z) (st : State) :
  openedFilteringLogsPage (bindToHttpRequestEvent mutate tab id st)
  = openedFilteringLogsPage st.
Proof.
  unfold bindToHttpRequestEvent. case_decide; [done |].
  destruct (tabsInfoMap st !! tab_tabId tab) as [tabInfo|]; [| done].
  destruct (filteringEvents tabInfo) as [events|]; [| done].
  by destruct (bindLoop _ _ _ _) as [[events' event']|].
Qed.

Lemma opened_clearEventsByTabId (id : Z) (st : State) :
  openedFilteringLogsPage (clearEventsByTabId id st)
  = openedFilteringLogsPage st.
Proof. unfold clearEventsByTabId. by destruct (tabsInfoMap st !! id). Qed.

(** Every call but the two that open and close a page leaves the counter
    alone. *)
Lemma opened_step (st : State) (c : Call) :
  c ≠ OnOpenFilteringLogPage → c ≠ OnCloseFilteringLogPage →
  openedFilteringLogsPage (step st c) = openedFilteringLogsPage st.
Proof.
  intros Hopen Hclose.
  destruct c as [tabs | tab | tab | tab | tab u f ty rule eid
                | tab el f ty rule | tab n v d ty rule m tp | tab rule eid
                | tab rules eid | tab actions eid | id | |]; simpl;
    try done.
  - apply opened_synchronizeOpenTabs.
  - apply opened_addTab.
  - apply opened_updateTab.
  - apply opened_removeTabById.
  - unfold addHttpRequestEvent. case_decide; [done |].
    destruct (tabsInfoMap st !! tab_tabId tab); [| done].
    by rewrite pushFilteringEvent_eq.
  - unfold addCosmeticEvent. case_decide; [done |].
    destruct rule; [| done].
    destruct (tabsInfoMap st !! tab_tabId tab); [| done].
    by rewrite pushFilteringEvent_eq.
  - unfold addCookieEvent. case_decide; [done |].
    destruct (tabsInfoMap st !! tab_tabId tab); [| done].
    by rewrite pushFilteringEvent_eq.
  - apply opened_bind.
  - apply opened_bind.
  - apply opened_bind.
  - apply opened_clearEventsByTabId.
Qed.

(** *** Entries sit under their own id *)

Lemma keyedByTabId_store (key : Z) (tabInfo : TabInfo) (st : State) :
  tabId tabInfo = key → keyedByTabId st →
  keyedByTabId (storeTabInfo key tabInfo st).
Proof. intros Hkey Hst. by apply map_Forall_insert_2. Qed.

Lemma keyedByTabId_addTab (tab : Tab) (st : State) :
  keyedByTabId st → keyedByTabId (addTab tab st).
Proof.
  intros Hst. unfold addTab. case_decide; [done |].
  by apply keyedByTabId_store.
Qed.

Lemma keyedByTabId_updateTab (tab : Tab) (st : State) :
  keyedByTabId st → keyedByTabId (updateTab tab st).
Proof.
  intros Hst. unfold updateTab. case_decide; [done |].
  by apply keyedByTabId_store.
Qed.

Lemma keyedByTabId_removeTabById (id : Z) (st : State) :
  keyedByTabId st → keyedByTabId (removeTabById id st).
Proof.
  intros Hst. unfold keyedByTabId. rewrite tabsInfoMap_removeTabById.
  case_decide; [done |]. by apply map_Forall_delete.
Qed.

Lemma keyedByTabId_sync (tabs : list Tab) (st : State) :
  keyedByTabId st → keyedByTabId (synchronizeOpenTabs tabs st).
Proof.
  unfold synchronizeOpenTabs. generalize (tabsInfoMapKeys st).
  intros ids Hst.
  assert (Hloop : ∀ acc, keyedByTabId acc.1 →
            keyedByTabId (fold_left synchronizeOpenTab tabs acc).1).
  { induction tabs as [|tab tabs IH]; [done |].
    intros [st0 ids0] Hacc. simpl fold_left. apply IH. simpl in *.
    destruct (tabsInfoMap st0 !! tab_tabId tab);
      [by apply keyedByTabId_updateTab | by apply keyedByTabId_addTab]. }
  specialize (Hloop (st, ids) Hst).
  destruct (fold_left synchronizeOpenTab tabs (st, ids)) as [st1 ids1].
  simpl in Hloop. clear Hst. revert st1 Hloop.
  induction ids1 as [|id ids1 IH]; [done |].
  intros st1 Hst1. simpl. by apply IH, keyedByTabId_removeTabById.
Qed.

Lemma keyedByTabId_push (key : Z) (tabInfo : TabInfo)
    (event : FilteringEvent) (st : State) :
  tabsInfoMap st !! key = Some tabInfo → keyedByTabId st →
  keyedByTabId (pushFilteringEvent key tabInfo event st).
Proof.
  intros Hlook Hst. rewrite pushFilteringEvent_eq.
  apply map_Forall_insert_2; [| done]. simpl. by apply (Hst key).
Qed.

Lemma keyedByTabId_bind (mutate : FilteringEvent → FilteringEvent)
    (tab : Tab) (id : option Z) (st : State) :
  keyedByTabId st → keyedByTabId (bindToHttpRequestEvent mutate tab id st).
Proof.
  intros Hst. unfold bindToHttpRequestEvent. case_decide; [done |].
  destruct (tabsInfoMap st !! tab_tabId tab) as [tabInfo|] eqn:Hlook;
    [| done].
  destruct (filteringEvents tabInfo) as [events|]; [| done].
  destruct (bindLoop _ _ _ _) as [[events' event']|]; [| done].
  apply keyedByTabId_store; [| done]. simpl. by apply (Hst _ _ Hlook).
Qed.

Lemma keyedByTabId_step (st : State) (c : Call) :
  keyedByTabId st → keyedByTabId (step st c).
Proof.
  intros Hst.
  destruct c as [tabs | tab | tab | tab | tab u f ty rule eid
                | tab el f ty rule | tab n v d ty rule m tp | tab rule eid
                | tab rules eid | tab actions eid | id | |]; simpl.
  - by apply keyedByTabId_sync.
  - by apply keyedByTabId_addTab.
  - by apply keyedByTabId_updateTab.
  - by apply keyedByTabId_removeTabById.
  - unfold addHttpRequestEvent. case_decide; [done |].
    destruct (tabsInfoMap st !! tab_tabId tab) eqn:Hlook; [| done].
    by apply keyedByTabId_push.
  - unfold addCosmeticEvent. case_decide; [done |].
    destruct rule; [| done].
    destruct (tabsInfoMap st !! tab_tabId tab) eqn:Hlook; [| done].
    by apply keyedByTabId_push.
  - unfold addCookieEvent. case_decide; [done |].
    destruct (tabsInfoMap st !! tab_tabId tab) eqn:Hlook; [| done].
    by apply keyedByTabId_push.
  - by apply keyedByTabId_bind.
  - by apply keyedByTabId_bind.
  - by apply keyedByTabId_bind.
  - unfold clearEventsByTabId.
    destruct (tabsInfoMap st !! id) as [tabInfo|] eqn:Hlook; [| done].
    apply keyedByTabId_store; [| done]. simpl. by apply (Hst _ _ Hlook).
  - done.
  - unfold onCloseFilteringLogPage. case_decide; [| done].
    unfold keyedByTabId. simpl. apply map_Forall_fmap.
    intros key tabInfo Hlook. simpl. by apply (Hst _ _ Hlook).
Qed.

Lemma keyedByTabId_initialState : keyedByTabId initialState.
Proof.
  unfold keyedByTabId, initialState. simpl.
  destruct hasBackgroundTab.
  - by apply map_Forall_singleton.
  - apply map_Forall_empty.
Qed.

(** X1: after any sequence of calls from the initial state, the entry that
    [getFilteringInfoByTabId] returns for an id has that id as its
    [tabId]. *)
Theorem registry_keyed_by_tabId (calls : list Call) (id : Z)
    (tabInfo : TabInfo) :
  getFilteringInfoByTabId id (run initialState calls) = Some tabInfo →
  tabId tabInfo = id.
Proof.
  assert (Hinv : ∀ st, keyedByTabId st → keyedByTabId (run st calls)).
  { induction calls as [|c calls IH]; [done |].
    intros st Hst. simpl. by apply IH, keyedByTabId_step. }
  intros Hlook.
  by apply (Hinv initialState keyedByTabId_initialState id).
Qed.

(** *** The gate and the buffers *)

Lemma gateKept_same_counter (st st' : State) :
  openedFilteringLogsPage st' = openedFilteringLogsPage st →
  (openedFilteringLogsPage st = 0 →
   map_Forall (λ _ tabInfo, filteringEvents tabInfo = None)
              (tabsInfoMap st) →
   map_Forall (λ _ tabInfo, filteringEvents tabInfo = None)
              (tabsInfoMap st')) →
  gateKept st → gateKept st'.
Proof.
  intros Hsame Hmap [Hpos Hnone]. unfold gateKept. rewrite Hsame.
  split; [done |]. intros Hzero. by apply Hmap, Hnone.
Qed.

Lemma gateKept_addTab (tab : Tab) (st : State) :
  gateKept st → gateKept (addTab tab st).
Proof.
  apply gateKept_same_counter; [apply opened_addTab |].
  intros _ Hnone. unfold addTab. case_decide; [done |]. simpl.
  apply map_Forall_insert_2; [| done]. simpl.
  destruct (tabsInfoMap st !! tab_tabId tab) as [tabInfo|] eqn:Hlook;
    [by apply (Hnone _ _ Hlook) | done].
Qed.

Lemma gateKept_updateTab (tab : Tab) (st : State) :
  gateKept st → gateKept (updateTab tab st).
Proof.
  apply gateKept_same_counter; [apply opened_updateTab |].
  intros _ Hnone. unfold updateTab. case_decide; [done |]. simpl.
  apply map_Forall_insert_2; [| done]. simpl.
  destruct (tabsInfoMap st !! tab_tabId tab) as [tabInfo|] eqn:Hlook;
    [by apply (Hnone _ _ Hlook) | done].
Qed.

Lemma gateKept_removeTabById (id : Z) (st : State) :
  gateKept st → gateKept (removeTabById id st).
Proof.
  apply gateKept_same_counter; [apply opened_removeTabById |].
  intros _ Hnone. rewrite tabsInfoMap_removeTabById.
  case_decide; [done |]. by apply map_Forall_delete.
Qed.

Lemma gateKept_sync (tabs : list Tab) (st : State) :
  gateKept st → gateKept (synchronizeOpenTabs tabs st).
Proof.
  unfold synchronizeOpenTabs. generalize (tabsInfoMapKeys st).
  intros ids Hst.
  assert (Hloop : ∀ acc, gateKept acc.1 →
            gateKept (fold_left synchronizeOpenTab tabs acc).1).
  { induction tabs as [|tab tabs IH]; [done |].
    intros [st0 ids0] Hacc. simpl fold_left. apply IH. simpl in *.
    destruct (tabsInfoMap st0 !! tab_tabId tab);
      [by apply gateKept_updateTab | by apply gateKept_addTab]. }
  specialize (Hloop (st, ids) Hst).
  destruct (fold_left synchronizeOpenTab tabs (st, ids)) as [st1 ids1].
  simpl in Hloop. clear Hst. revert st1 Hloop.
  induction ids1 as [|id ids1 IH]; [done |].
  intros st1 Hst1. simpl. by apply IH, gateKept_removeTabById.
Qed.

Lemma gateKept_step (st : State) (c : Call) :
  gateKept st → gateKept (step st c).
Proof.
  intros Hst.
  destruct c as [tabs | tab | tab | tab | tab u f ty rule eid
                | tab el f ty rule | tab n v d ty rule m tp | tab rule eid
                | tab rules eid | tab actions eid | id | |]; simpl.
  - by apply gateKept_sync.
  - by apply gateKept_addTab.
  - by apply gateKept_updateTab.
  - by apply gateKept_removeTabById.
  - unfold addHttpRequestEvent. case_decide as Hgate; [done |].
    destruct (tabsInfoMap st !! tab_tabId tab); [| done].
    rewrite pushFilteringEvent_eq. destruct Hst as [Hpos _].
    by split.
  - unfold addCosmeticEvent. case_decide as Hgate; [done |].
    destruct rule; [| done].
    destruct (tabsInfoMap st !! tab_tabId tab); [| done].
    rewrite pushFilteringEvent_eq. destruct Hst as [Hpos _].
    by split.
  - unfold addCookieEvent. case_decide as Hgate; [done |].
    destruct (tabsInfoMap st !! tab_tabId tab); [| done].
    rewrite pushFilteringEvent_eq. destruct Hst as [Hpos _].
    by split.
  - unfold bindRuleToHttpRequestEvent, bindToHttpRequestEvent.
    case_decide as Hgate; [done |].
    destruct (tabsInfoMap st !! tab_tabId tab) as [tabInfo|]; [| done].
    destruct (filteringEvents tabInfo) as [events|]; [| done].
    destruct (bindLoop _ _ _ _) as [[events' event']|]; [| done].
    destruct Hst as [Hpos _]. by split.
  - unfold bindReplaceRulesToHttpRequestEvent, bindToHttpRequestEvent.
    case_decide as Hgate; [done |].
    destruct (tabsInfoMap st !! tab_tabId tab) as [tabInfo|]; [| done].
    destruct (filteringEvents tabInfo) as [events|]; [| done].
    destruct (bindLoop _ _ _ _) as [[events' event']|]; [| done].
    destruct Hst as [Hpos _]. by split.
  - unfold bindStealthActionsToHttpRequestEvent, bindToHttpRequestEvent.
    case_decide as Hgate; [done |].
    destruct (tabsInfoMap st !! tab_tabId tab) as [tabInfo|]; [| done].
    destruct (filteringEvents tabInfo) as [events|]; [| done].
    destruct (bindLoop _ _ _ _) as [[events' event']|]; [| done].
    destruct Hst as [Hpos _]. by split.
  - revert Hst.
    apply gateKept_same_counter; [apply opened_clearEventsByTabId |].
    intros _ Hnone. unfold clearEventsByTabId.
    destruct (tabsInfoMap st !! id) as [tabInfo|]; [| done]. simpl.
    by apply map_Forall_insert_2.
  - destruct Hst as [Hpos _]. unfold gateKept. simpl. split; intros; lia.
  - destruct Hst as [Hpos Hnone]. unfold gateKept, onCloseFilteringLogPage.
    case_decide as Hzero; simpl.
    + split; [lia |]. intros _. apply map_Forall_fmap.
      by intros key tabInfo _.
    + split; [lia | done].
Qed.

Lemma gateKept_initialState : gateKept initialState.
Proof.
  unfold gateKept, initialState. simpl. split; [done |]. intros _.
  destruct hasBackgroundTab.
  - by apply map_Forall_singleton.
  - apply map_Forall_empty.
Qed.

(** X2: after any sequence of calls from the initial state the counter of
    opened pages is not negative, and whenever it is 0 ([isOpen] is false) no
    tab of the registry has a buffer. *)
Theorem closed_gate_holds_no_events (calls : list Call) (id : Z) :
  isOpen (run initialState calls) = false →
  openedFilteringLogsPage (run initialState calls) = 0
  ∧ bufferOf id (run initialState calls) = None.
Proof.
  assert (Hinv : ∀ st, gateKept st → gateKept (run st calls)).
  { induction calls as [|c calls IH]; [done |].
    intros st Hst. simpl. by apply IH, gateKept_step. }
  specialize (Hinv initialState gateKept_initialState).
  destruct Hinv as [Hpos Hnone].
  unfold isOpen. intros Hclosed. apply bool_decide_eq_false in Hclosed.
  assert (Hzero : openedFilteringLogsPage (run initialState calls) = 0)
    by lia.
  split; [done |]. unfold bufferOf.
  destruct (tabsInfoMap (run initialState calls) !! id) as [tabInfo|]
    eqn:Hlook; [| done].
  simpl. by apply (Hnone Hzero id).
Qed.

(** *** Missing tabs, missing events, other tabs *)

(** X3: for a tab that is not registered, each recording function and each
    binding function returns the state as it was, whatever the counter of
    opened pages: nothing is stored and nothing is published. *)
Theorem unknown_tab_is_noop (tab : Tab) (st : State) :
  getFilteringInfoByTabId (tab_tabId tab) st = None →
  (∀ u f ty r id, addHttpRequestEvent tab u f ty r id st = st)
  ∧ (∀ el f ty r, addCosmeticEvent tab el f ty r st = st)
  ∧ (∀ n v d ty r m tp, addCookieEvent tab n v d ty r m tp st = st)
  ∧ (∀ r id, bindRuleToHttpRequestEvent tab r id st = st)
  ∧ (∀ rs id, bindReplaceRulesToHttpRequestEvent tab rs id st = st)
  ∧ (∀ a id, bindStealthActionsToHttpRequestEvent tab a id st = st).
Proof.
  unfold getFilteringInfoByTabId. intros Hunknown.
  unfold addHttpRequestEvent, addCosmeticEvent, addCookieEvent,
    bindRuleToHttpRequestEvent, bindReplaceRulesToHttpRequestEvent,
    bindStealthActionsToHttpRequestEvent, bindToHttpRequestEvent.
  rewrite Hunknown.
  split_and!; intros; case_decide; try done. by destruct r.
Qed.

(** X4: when no event in the buffer of the tab has the [eventId] asked for
    (or the tab has no buffer), each of the three binding functions returns
    the state as it was: the rule or the actions are dropped and no
    [LOG_EVENT_UPDATED] is published. *)
Theorem unmatched_eventId_is_noop (tab : Tab) (id : option Z) (st : State) :
  (∀ events j event,
     bufferOf (tab_tabId tab) st = Some events →
     events !! j = Some event → eventId event ≠ id) →
  (∀ r, bindRuleToHttpRequestEvent tab r id st = st)
  ∧ (∀ rs, bindReplaceRulesToHttpRequestEvent tab rs id st = st)
  ∧ (∀ a, bindStealthActionsToHttpRequestEvent tab a id st = st).
Proof.
  intros Hnone.
  assert (Hbind : ∀ mutate, bindToHttpRequestEvent mutate tab id st = st).
  { intros mutate. unfold bindToHttpRequestEvent. case_decide; [done |].
    destruct (tabsInfoMap st !! tab_tabId tab) as [tabInfo|] eqn:Hlook;
      [| done].
    destruct (filteringEvents tabInfo) as [events|] eqn:Hbuf; [| done].
    rewrite bindLoop_none; [done |]. intros j event _.
    apply Hnone. unfold bufferOf. by rewrite Hlook. }
  split_and!; intros; apply Hbind.
Qed.

Lemma lookup_push_ne (key k : Z) (tabInfo : TabInfo) (event : FilteringEvent)
    (st : State) :
  k ≠ key →
  tabsInfoMap (pushFilteringEvent key tabInfo event st) !! k
  = tabsInfoMap st !! k.
Proof.
  intros Hne. rewrite pushFilteringEvent_eq. simpl.
  by rewrite lookup_insert_ne.
Qed.

Lemma lookup_bind_ne (mutate : FilteringEvent → FilteringEvent) (tab : Tab)
    (id : option Z) (st : State) (k : Z) :
  k ≠ tab_tabId tab →
  tabsInfoMap (bindToHttpRequestEvent mutate tab id st) !! k
  = tabsInfoMap st !! k.
Proof.
  intros Hne. unfold bindToHttpRequestEvent. case_decide; [done |].
  destruct (tabsInfoMap st !! tab_tabId tab) as [tabInfo|]; [| done].
  destruct (filteringEvents tabInfo) as [events|]; [| done].
  destruct (bindLoop _ _ _ _) as [[events' event']|]; [| done].
  simpl. by rewrite lookup_insert_ne.
Qed.

(** X5: a call that records an event for a tab, binds to an event of a tab
    or clears the events of a tab leaves the entry of every other tab, and
    the counter of opened pages, as they were. *)
Theorem other_tabs_untouched (c : Call) (id k : Z) (st : State) :
  targetTab c = Some id →
  k ≠ id →
  getFilteringInfoByTabId k (step st c) = getFilteringInfoByTabId k st
  ∧ openedFilteringLogsPage (step st c) = openedFilteringLogsPage st.
Proof.
  intros Htarget Hne. split; [| by apply opened_step; intros ->].
  unfold getFilteringInfoByTabId.
  destruct c as [tabs | tab | tab | tab | tab u f ty rule eid
                | tab el f ty rule | tab n v d ty rule m tp | tab rule eid
                | tab rules eid | tab actions eid | id' | |];
    simpl in Htarget; try done; injection Htarget as <-; simpl.
  - unfold addHttpRequestEvent. case_decide; [done |].
    destruct (tabsInfoMap st !! tab_tabId tab); [| done].
    by apply lookup_push_ne.
  - unfold addCosmeticEvent. case_decide; [done |].
    destruct rule; [| done].
    destruct (tabsInfoMap st !! tab_tabId tab); [| done].
    by apply lookup_push_ne.
  - unfold addCookieEvent. case_decide; [done |].
    destruct (tabsInfoMap st !! tab_tabId tab); [| done].
    by apply lookup_push_ne.
  - by apply lookup_bind_ne.
  - by apply lookup_bind_ne.
  - by apply lookup_bind_ne.
  - unfold clearEventsByTabId.
    destruct (tabsInfoMap st !! id'); [| done].
    simpl. by rewrite lookup_insert_ne.
Qed.

(** *** How bindings compose *)

Lemma bindLoop_cases (mutate : FilteringEvent → FilteringEvent)
    (id : option Z) (events : list FilteringEvent) (n : nat) :
  (∀ j event, (j < n)%nat → events !! j = Some event → eventId event ≠ id)
  ∨ ∃ i event,
      (i < n)%nat ∧ events !! i = Some event ∧ eventId event = id
      ∧ ∀ j later, (i < j < n)%nat → events !! j = Some later →
                   eventId later ≠ id.
Proof.
  induction n as [|n IH].
  { left. intros; lia. }
  destruct (events !! n) as [event|] eqn:Hn.
  - destruct (decide (eventId event = id)) as [Hid | Hid].
    + right. exists n, event. split_and!; try done; [lia |].
      intros; lia.
    + destruct IH as [Hnone | (i & e & Hi & Hev & Heid & Hlater)].
      * left. intros j e Hj Hj'.
        destruct (decide (j = n)) as [-> | ?]; [congruence |].
        apply (Hnone j); [lia | done].
      * right. exists i, e. split_and!; try done; [lia |].
        intros j later Hj Hj'.
        destruct (decide (j = n)) as [-> | ?]; [congruence |].
        apply (Hlater j); [lia | done].
  - destruct IH as [Hnone | (i & e & Hi & Hev & Heid & Hlater)].
    + left. intros j e Hj Hj'.
      destruct (decide (j = n)) as [-> | ?]; [congruence |].
      apply (Hnone j); [lia | done].
    + right. exists i, e. split_and!; try done; [lia |].
      intros j later Hj Hj'.
      destruct (decide (j = n)) as [-> | ?]; [congruence |].
      apply (Hlater j); [lia | done].
Qed.

(** A binding either does nothing, whatever it was to write, or finds the
    event with the highest index that has the [eventId]. *)
Lemma bind_cases (tab : Tab) (id : option Z) (st : State) :
  (∀ mutate, bindToHttpRequestEvent mutate tab id st = st)
  ∨ ∃ tabInfo events i event,
      openedFilteringLogsPage st ≠ 0
      ∧ tabsInfoMap st !! tab_tabId tab = Some tabInfo
      ∧ filteringEvents tabInfo = Some events
      ∧ events !! i = Some event
      ∧ eventId event = id
      ∧ ∀ j later, (i < j)%nat → events !! j = Some later →
                   eventId later ≠ id.
Proof.
  unfold bindToHttpRequestEvent.
  destruct (decide (openedFilteringLogsPage st = 0)) as [| Hopen];
    [by left |].
  destruct (tabsInfoMap st !! tab_tabId tab) as [tabInfo|] eqn:Hlook;
    [| by left].
  destruct (filteringEvents tabInfo) as [events|] eqn:Hbuf; [| by left].
  destruct (bindLoop_cases (λ e, e) id events (length events))
    as [Hnone | (i & event & Hi & Hev & Hid & Hlater)].
  - left. intros mutate. by rewrite bindLoop_none.
  - right. exists tabInfo, events, i, event. split_and!; try done.
    intros j later Hj Hj'. apply (Hlater j); [| done].
    apply lookup_lt_Some in Hj'. lia.
Qed.

Lemma bindLoop_ext (f g : FilteringEvent → FilteringEvent) (id : option Z)
    (events : list FilteringEvent) (n : nat) :
  (∀ e, f e = g e) → bindLoop f id events n = bindLoop g id events n.
Proof.
  intros Hext. induction n as [|n IH]; [done |]. simpl.
  destruct (events !! n) as [event|]; [| done].
  case_decide; [| done]. by rewrite Hext.
Qed.

Lemma bindToHttpRequestEvent_ext (f g : FilteringEvent → FilteringEvent)
    (tab : Tab) (id : option Z) (st : State) :
  (∀ e, f e = g e) →
  bindToHttpRequestEvent f tab id st = bindToHttpRequestEvent g tab id st.
Proof.
  intros Hext. unfold bindToHttpRequestEvent.
  case_decide; [done |].
  destruct (tabsInfoMap st !! tab_tabId tab) as [tabInfo|]; [| done].
  destruct (filteringEvents tabInfo) as [events|]; [| done].
  by rewrite (bindLoop_ext f g).
Qed.

Lemma tabsInfoMap_bind_bind (m1 m2 : FilteringEvent → FilteringEvent)
    (tab : Tab) (id : option Z) (st : State) :
  (∀ e, eventId (m1 e) = eventId e) →
  tabsInfoMap (bindToHttpRequestEvent m2 tab id
                 (bindToHttpRequestEvent m1 tab id st))
  = tabsInfoMap (bindToHttpRequestEvent (λ e, m2 (m1 e)) tab id st).
Proof.
  intros Hkeeps.
  destruct (bind_cases tab id st)
    as [Hnoop | (tabInfo & events & i & event & Hopen & Hlook & Hbuf & Hev
                 & Hid & Hlater)].
  { by rewrite !Hnoop. }
  pose proof (lookup_lt_Some _ _ _ Hev) as Hi.
  destruct (bindToHttpRequestEvent_latest m1 tab tabInfo events i event id
              st) as (Hmap1 & Hopen1 & _); try done.
  destruct (bindToHttpRequestEvent_latest (λ e, m2 (m1 e)) tab tabInfo
              events i event id st) as (Hmap12 & _); try done.
  destruct (bindToHttpRequestEvent_latest m2 tab
              (withFilteringEvents (Some (<[i := m1 event]> events)) tabInfo)
              (<[i := m1 event]> events) i (m1 event) id
              (bindToHttpRequestEvent m1 tab id st)) as (Hmap2 & _).
  - by rewrite Hopen1.
  - rewrite Hmap1. apply lookup_insert_eq.
  - done.
  - by apply list_lookup_insert_eq.
  - by rewrite Hkeeps.
  - intros j later Hj. rewrite list_lookup_insert_ne by lia.
    by apply Hlater.
  - rewrite Hmap2, Hmap12, Hmap1, insert_insert_eq, list_insert_insert_eq.
    done.
Qed.

(** X6: binding a rule to an event that already had a rule bound replaces
    it: the registry after two bindings of a rule to the same [eventId] is
    the registry after the second one alone; the same holds when replace
    rules are bound after a rule. *)
Theorem later_binding_replaces (tab : Tab) (id : option Z) (st : State)
    (first : Rule) :
  (∀ second,
     tabsInfoMap (bindRuleToHttpRequestEvent tab second id
                    (bindRuleToHttpRequestEvent tab first id st))
     = tabsInfoMap (bindRuleToHttpRequestEvent tab second id st))
  ∧ (∀ rules,
       tabsInfoMap (bindReplaceRulesToHttpRequestEvent tab rules id
                      (bindRuleToHttpRequestEvent tab first id st))
       = tabsInfoMap (bindReplaceRulesToHttpRequestEvent tab rules id st)).
Proof.
  unfold bindRuleToHttpRequestEvent, bindReplaceRulesToHttpRequestEvent.
  split; intros; rewrite tabsInfoMap_bind_bind by done;
    by erewrite bindToHttpRequestEvent_ext.
Qed.

(** X7: binding a rule and binding stealth actions to the same [eventId] do
    not interfere: in either order the registry ends up the same, with both
    on the event. *)
Theorem rule_and_actions_commute (tab : Tab) (id : option Z) (st : State)
    (rule : Rule) (actions : Z) :
  tabsInfoMap (bindStealthActionsToHttpRequestEvent tab actions id
                 (bindRuleToHttpRequestEvent tab rule id st))
  = tabsInfoMap (bindRuleToHttpRequestEvent tab rule id
                   (bindStealthActionsToHttpRequestEvent tab actions id st)).
Proof.
  unfold bindRuleToHttpRequestEvent, bindStealthActionsToHttpRequestEvent.
  rewrite !tabsInfoMap_bind_bind by done.
  by erewrite bindToHttpRequestEvent_ext.
Qed.

Lemma bind_keeps_eventIds (mutate : FilteringEvent → FilteringEvent)
    (tab : Tab) (id : option Z) (st : State) (k : Z) :
  (∀ e, eventId (mutate e) = eventId e) →
  eventIdsOf k (bindToHttpRequestEvent mutate tab id st) = eventIdsOf k st.
Proof.
  intros Hkeeps. unfold eventIdsOf.
  destruct (decide (k = tab_tabId tab)) as [-> | Hne];
    [| unfold bufferOf; by rewrite lookup_bind_ne].
  destruct (bind_cases tab id st)
    as [Hnoop | (tabInfo & events & i & event & Hopen & Hlook & Hbuf & Hev
                 & Hid & Hlater)].
  { by rewrite Hnoop. }
  destruct (bindToHttpRequestEvent_latest mutate tab tabInfo events i event
              id st) as (_ & _ & _ & Hbuf' & _); try done.
  rewrite Hbuf'. unfold bufferOf. rewrite Hlook. simpl. rewrite Hbuf.
  simpl. f_equal. rewrite list_fmap_insert. apply list_insert_id.
  rewrite list_lookup_fmap, Hev. simpl. by rewrite Hkeeps.
Qed.

(** X8: a binding never adds, removes or moves an event and never changes
    an [eventId]: after each of the three binding functions, the buffer of
    every tab lists the same [eventId]s in the same order as before, so it
    has the same length. *)
Theorem binding_keeps_eventIds (tab : Tab) (id : option Z) (st : State)
    (k : Z) :
  (∀ rule,
     eventIdsOf k (bindRuleToHttpRequestEvent tab rule id st)
     = eventIdsOf k st)
  ∧ (∀ rules,
       eventIdsOf k (bindReplaceRulesToHttpRequestEvent tab rules id st)
       = eventIdsOf k st)
  ∧ (∀ actions,
       eventIdsOf k (bindStealthActionsToHttpRequestEvent tab actions id st)
       = eventIdsOf k st).
Proof.
  unfold bindRuleToHttpRequestEvent, bindReplaceRulesToHttpRequestEvent,
    bindStealthActionsToHttpRequestEvent.
  split_and!; intros; by apply bind_keeps_eventIds.
Qed.

(** *** Recording, then binding or clearing *)

Lemma pushBuffer_snoc (events : list FilteringEvent) :
  ∃ kept, ∀ event, pushBuffer events event = kept ++ [event].
Proof.
  destruct (decide (1000 ≤ length events)%nat) as [Hfull | Hroom].
  - exists (delete 1%nat events). intros event.
    rewrite pushBuffer_full by done.
    destruct events as [|a [|b events]]; simpl in *; try lia; done.
  - exists events. intros event. apply pushBuffer_room. lia.
Qed.

(** X9: with a filtering-log page opened and the tab registered, recording
    a request without a rule and then binding a rule to its [eventId] leaves
    the registry as recording the request with that rule at once does, even
    when older events have the same [eventId]; the binding publishes exactly
    one [LOG_EVENT_UPDATED], for the event just recorded. *)
Theorem bind_finds_just_recorded (tab : Tab) (tabInfo : TabInfo)
    (st : State) (u f ty : string) (id : option Z) (rule : Rule) :
  openedFilteringLogsPage st ≠ 0 →
  tabsInfoMap st !! tab_tabId tab = Some tabInfo →
  let recorded := addHttpRequestEvent tab u f ty None id st in
  let bound := bindRuleToHttpRequestEvent tab rule id recorded in
  tabsInfoMap bound
  = tabsInfoMap (addHttpRequestEvent tab u f ty (Some rule) id st)
  ∧ ∃ tabInfo' event,
      emitted recorded bound = [LOG_EVENT_UPDATED tabInfo' event]
      ∧ eventId event = id
      ∧ requestUrl event = Some u
      ∧ requestRule event = Some (snapshotOf rule).
Proof.
  intros Hopen Hknown recorded bound. subst bound recorded.
  change (addHttpRequestEvent tab u f ty None id st)
    with (recordRequest tab st (mkRequest u f ty None id)).
  change (addHttpRequestEvent tab u f ty (Some rule) id st)
    with (recordRequest tab st (mkRequest u f ty (Some rule) id)).
  rewrite !(recordRequest_eq tab tabInfo) by done.
  rewrite !pushFilteringEvent_eq.
  destruct (pushBuffer_snoc (default [] (filteringEvents tabInfo)))
    as [kept Hkept].
  rewrite !Hkept.
  set (event := requestEvent (mkRequest u f ty None id)).
  assert (Hbound : addRuleToFilteringEvent event rule
                   = requestEvent (mkRequest u f ty (Some rule) id)).
  { unfold addRuleToFilteringEvent, requestEvent, withRequestRule. simpl.
    by rewrite appendProperties_snapshotOf. }
  rewrite <- Hbound.
  match goal with
  | |- context [bindRuleToHttpRequestEvent tab rule id ?st1] =>
      set (recorded := st1)
  end.
  destruct (bindToHttpRequestEvent_latest
              (λ e, addRuleToFilteringEvent e rule) tab
              (withFilteringEvents (Some (kept ++ [event])) tabInfo)
              (kept ++ [event]) (length kept) event id recorded)
    as (Hmap & _ & Hemit & _).
  - done.
  - subst recorded. simpl. apply lookup_insert_eq.
  - done.
  - by apply list_lookup_middle.
  - done.
  - intros j later Hj Hlook. apply lookup_lt_Some in Hlook.
    rewrite length_app in Hlook. simpl in Hlook. lia.
  - unfold bindRuleToHttpRequestEvent. split.
    + rewrite Hmap. subst recorded. simpl. rewrite insert_insert_eq.
      rewrite insert_app_r_alt by lia. rewrite Nat.sub_diag. done.
    + eexists _, _. split; [exact Hemit |]. rewrite Hbound. done.
Qed.

Lemma bind_cleared (mutate : FilteringEvent → FilteringEvent) (tab : Tab)
    (id : option Z) (st : State) :
  bindToHttpRequestEvent mutate tab id
    (clearEventsByTabId (tab_tabId tab) st)
  = clearEventsByTabId (tab_tabId tab) st.
Proof.
  unfold clearEventsByTabId.
  destruct (tabsInfoMap st !! tab_tabId tab) as [tabInfo|] eqn:Hlook.
  - unfold bindToHttpRequestEvent. case_decide; [done |]. simpl.
    by rewrite lookup_insert_eq.
  - unfold bindToHttpRequestEvent. case_decide; [done |].
    by rewrite Hlook.
Qed.

(** X10: once the events of a tab are cleared, a binding that arrives for
    one of them is dropped: each of the three binding functions returns the
    state as [clearEventsByTabId] left it. *)
Theorem cleared_tab_drops_bindings (tab : Tab) (id : option Z) (st : State) :
  let cleared := clearEventsByTabId (tab_tabId tab) st in
  (∀ rule, bindRuleToHttpRequestEvent tab rule id cleared = cleared)
  ∧ (∀ rules,
       bindReplaceRulesToHttpRequestEvent tab rules id cleared = cleared)
  ∧ (∀ actions,
       bindStealthActionsToHttpRequestEvent tab actions id cleared
       = cleared).
Proof.
  unfold bindRuleToHttpRequestEvent, bindReplaceRulesToHttpRequestEvent,
    bindStealthActionsToHttpRequestEvent.
  split_and!; intros; apply bind_cleared.
Qed.

(** X11: with a filtering-log page opened, the request recorded next after
    the events of a registered tab were cleared is alone in the buffer of
    the tab. *)
Theorem record_after_clear_restarts (tab : Tab) (tabInfo : TabInfo)
    (st : State) (r : Request) :
  openedFilteringLogsPage st ≠ 0 →
  tabsInfoMap st !! tab_tabId tab = Some tabInfo →
  bufferOf (tab_tabId tab)
           (recordRequest tab (clearEventsByTabId (tab_tabId tab) st) r)
  = Some [requestEvent r].
Proof.
  intros Hopen Hknown.
  rewrite (recordRequest_eq tab (deleteFilteringEvents tabInfo)).
  - rewrite pushFilteringEvent_eq. unfold bufferOf. simpl.
    rewrite lookup_insert_eq. simpl.
    by rewrite pushBuffer_room by (simpl; lia).
  - by rewrite opened_clearEventsByTabId.
  - unfold clearEventsByTabId. rewrite Hknown. simpl.
    apply lookup_insert_eq.
Qed.

(** *** What stays in a buffer *)

Lemma fold_pushBuffer_window (first : FilteringEvent)
    (rest : list FilteringEvent) :
  fold_left pushBuffer (first :: rest) []
  = first :: drop (length rest - 999) rest.
Proof.
  induction rest as [|event rest IH] using rev_ind.
  { simpl. by rewrite pushBuffer_room by (simpl; lia). }
  rewrite app_comm_cons, fold_left_app. simpl fold_left at 1.
  change (fold_left pushBuffer rest (pushBuffer [] first))
    with (fold_left pushBuffer (first :: rest) []).
  rewrite IH. rewrite length_app. simpl length.
  destruct (decide (length rest < 999)%nat) as [Hroom | Hfull].
  - replace (length rest - 999)%nat with 0%nat by lia.
    replace (length rest + 1 - 999)%nat with 0%nat by lia.
    rewrite !drop_0. rewrite pushBuffer_room by (simpl; lia). done.
  - rewrite pushBuffer_full
      by (simpl; rewrite length_drop; lia).
    replace (length rest + 1 - 999)%nat
      with (length rest - 999 + 1)%nat by lia.
    rewrite drop_app_le by lia.
    rewrite <- drop_drop.
    destruct (drop (length rest - 999) rest) as [|second window] eqn:Hdrop.
    + apply (f_equal length) in Hdrop. rewrite length_drop in Hdrop.
      simpl in Hdrop. lia.
    + done.
Qed.

(** X12: with a filtering-log page opened, however many requests are
    recorded for a registered tab whose buffer is empty, the buffer holds the
    first request ever recorded followed by the latest 999 of the others (all
    of them while there are no more than 999). *)
Theorem buffer_keeps_first_and_latest (tab : Tab) (tabInfo : TabInfo)
    (st : State) (first : Request) (rest : list Request) :
  openedFilteringLogsPage st ≠ 0 →
  tabsInfoMap st !! tab_tabId tab = Some tabInfo →
  default [] (filteringEvents tabInfo) = [] →
  bufferOf (tab_tabId tab)
           (fold_left (recordRequest tab) (first :: rest) st)
  = Some (requestEvent first
          :: drop (length rest - 999) (requestEvent <$> rest)).
Proof.
  intros Hopen Hknown Hempty.
  rewrite (fold_recordRequest tab (first :: rest) st tabInfo) by done.
  rewrite Hempty, fmap_cons, fold_pushBuffer_window.
  by rewrite length_fmap.
Qed.

Lemma head_pushBuffer (events : list FilteringEvent)
    (event first : FilteringEvent) :
  head events = Some first → head (pushBuffer events event) = Some first.
Proof.
  intros Hhead.
  destruct (decide (1000 ≤ length events)%nat) as [Hfull | Hroom].
  - rewrite pushBuffer_full by done.
    destruct events as [|a [|b events]]; simpl in *; try lia; done.
  - rewrite pushBuffer_room by lia. by destruct events.
Qed.

(** X13: recording never evicts or replaces the event at index 0: after
    each of the three recording functions, for whatever tab, a buffer that
    had a first event still has the same one. *)
Theorem recording_keeps_first_event (c : Call) (k : Z) (st : State)
    (first : FilteringEvent) :
  isRecording c = true →
  bufferOf k st ≫= head = Some first →
  bufferOf k (step st c) ≫= head = Some first.
Proof.
  intros Hrec Hfirst.
  assert (Hpush : ∀ key tabInfo event,
            tabsInfoMap st !! key = Some tabInfo →
            bufferOf k (pushFilteringEvent key tabInfo event st) ≫= head
            = Some first).
  { intros key tabInfo event Hlook.
    destruct (decide (k = key)) as [-> | Hne].
    - rewrite pushFilteringEvent_eq. unfold bufferOf in *. simpl.
      rewrite lookup_insert_eq. simpl. rewrite Hlook in Hfirst.
      simpl in Hfirst. apply head_pushBuffer.
      by destruct (filteringEvents tabInfo).
    - unfold bufferOf in *. by rewrite lookup_push_ne. }
  destruct c as [tabs | tab | tab | tab | tab u f ty rule eid
                | tab el f ty rule | tab n v d ty rule m tp | tab rule eid
                | tab rules eid | tab actions eid | id' | |];
    simpl in Hrec; try done; simpl.
  - unfold addHttpRequestEvent. case_decide; [done |].
    destruct (tabsInfoMap st !! tab_tabId tab) eqn:Hlook; [| done].
    by apply Hpush.
  - unfold addCosmeticEvent. case_decide; [done |].
    destruct rule; [| done].
    destruct (tabsInfoMap st !! tab_tabId tab) eqn:Hlook; [| done].
    by apply Hpush.
  - unfold addCookieEvent. case_decide; [done |].
    destruct (tabsInfoMap st !! tab_tabId tab) eqn:Hlook; [| done].
    by apply Hpush.
Qed.

(** *** Opening and closing pages *)

Lemma opened_iter_open (n : nat) (st : State) :
  openedFilteringLogsPage (Nat.iter n onOpenFilteringLogPage st)
  = openedFilteringLogsPage st + Z.of_nat n.
Proof.
  induction n as [|n IH]; [simpl; lia |].
  rewrite Nat.iter_succ. simpl. rewrite IH. lia.
Qed.

Lemma opened_iter_close (m : nat) (st : State) :
  0 ≤ openedFilteringLogsPage st →
  openedFilteringLogsPage (Nat.iter m onCloseFilteringLogPage st)
  = Z.max (openedFilteringLogsPage st - Z.of_nat m) 0.
Proof.
  intros Hpos. induction m as [|m IH]; [simpl; lia |].
  rewrite Nat.iter_succ, opened_closed, IH. lia.
Qed.

(** X14: from a state whose counter is not negative, [n] calls of
    [onOpenFilteringLogPage] followed by [m] calls of
    [onCloseFilteringLogPage] leave the counter at the counter before plus
    [n] minus [m], or at 0 when that is negative; [isOpen] says whether it is
    positive; and when it is 0 after at least one close, no tab has a
    buffer. *)
Theorem opens_then_closes (n m : nat) (st : State) (k : Z) :
  0 ≤ openedFilteringLogsPage st →
  let st' :=
    Nat.iter m onCloseFilteringLogPage
             (Nat.iter n onOpenFilteringLogPage st) in
  openedFilteringLogsPage st'
  = Z.max (openedFilteringLogsPage st + Z.of_nat n - Z.of_nat m) 0
  ∧ isOpen st'
    = bool_decide (Z.of_nat m < openedFilteringLogsPage st + Z.of_nat n)
  ∧ ((0 < m)%nat → openedFilteringLogsPage st' = 0 → bufferOf k st' = None).
Proof.
  intros Hpos st'.
  assert (Hcount : openedFilteringLogsPage st'
                   = Z.max (openedFilteringLogsPage st + Z.of_nat n
                            - Z.of_nat m) 0).
  { subst st'. rewrite opened_iter_close; rewrite opened_iter_open; lia. }
  split_and!.
  - done.
  - unfold isOpen. rewrite Hcount. apply bool_decide_ext. lia.
  - intros Hm. subst st'. destruct m as [|m]; [lia |].
    rewrite Nat.iter_succ. intros Hzero. unfold bufferOf.
    rewrite lookup_closed by done.
    by destruct (tabsInfoMap _ !! k).
Qed.

(** *** Replace rules *)

(** X15: [addReplaceRulesToFilteringEvent] puts on the event the snapshots
    of the rules it is given, one for each rule and in their order, and a
    [requestRule] that only says [replaceRule]: a rule bound before does not
    show any more.  The [eventId] and the stealth actions of the event stay. *)
Theorem replace_rules_are_snapshots (event : FilteringEvent)
    (rules : list Rule) :
  let event' := addReplaceRulesToFilteringEvent event rules in
  replaceRules event' = Some (snapshotOf <$> rules)
  ∧ requestRule event'
    = Some (mkRuleSnapshot None None None None None None None None
                           (Some true) None)
  ∧ eventId event' = eventId event
  ∧ stealthActions event' = stealthActions event.
Proof.
  unfold addReplaceRulesToFilteringEvent. simpl.
  by rewrite fold_appendProperties.
Qed.

(** *** More on sweeps and tab events *)

Lemma bufferOf_fold_synchronizeOpenTab (tabs : list Tab) :
  ∀ (acc : State * list Z) (k : Z),
    bufferOf k (fold_left synchronizeOpenTab tabs acc).1 = bufferOf k acc.1.
Proof.
  induction tabs as [|tab tabs IH]; [done |].
  intros acc k. simpl fold_left.
  by rewrite IH, bufferOf_synchronizeOpenTab.
Qed.

Lemma lookup_fold_removeTabById_kept (ids : list Z) :
  ∀ (st : State) (k : Z),
    k = backgroundTabId ∨ k ∉ ids →
    tabsInfoMap (fold_left (λ st id, removeTabById id st) ids st) !! k
    = tabsInfoMap st !! k.
Proof.
  induction ids as [|id ids IH]; [done |].
  intros st k Hk. simpl. rewrite IH.
  - apply lookup_removeTabById_ne. rewrite not_elem_of_cons in Hk. tauto.
  - rewrite not_elem_of_cons in Hk. tauto.
Qed.

(** X16: after [synchronizeOpenTabs], the ids registered are the ids of the
    open tabs, the background tab id left out, together with the background
    tab id when it was registered before; every tab that is registered
    afterwards has the buffer it had before (none for a new tab); and the
    counter of opened pages is the same. *)
Theorem sweep_registers_open_tabs (tabs : list Tab) (st : State) (k : Z) :
  let st' := synchronizeOpenTabs tabs st in
  (is_Some (getFilteringInfoByTabId k st')
   ↔ (k ≠ backgroundTabId ∧ k ∈ tab_tabId <$> tabs)
     ∨ (k = backgroundTabId ∧ is_Some (getFilteringInfoByTabId k st)))
  ∧ (is_Some (getFilteringInfoByTabId k st') →
     bufferOf k st' = bufferOf k st)
  ∧ openedFilteringLogsPage st' = openedFilteringLogsPage st.
Proof.
  intros st'. unfold getFilteringInfoByTabId. split_and!.
  - apply lookup_synchronizeOpenTabs.
  - subst st'. unfold synchronizeOpenTabs.
    pose proof (bufferOf_fold_synchronizeOpenTab tabs
                  (st, tabsInfoMapKeys st) k) as Hbuf.
    destruct (fold_left synchronizeOpenTab tabs (st, tabsInfoMapKeys st))
      as [st1 ids1].
    simpl in Hbuf. intros Hsome.
    apply lookup_fold_removeTabById in Hsome as [_ Hkept].
    unfold bufferOf in *.
    by rewrite lookup_fold_removeTabById_kept.
  - apply opened_synchronizeOpenTabs.
Qed.

Lemma lookup_fold_synchronizeOpenTab_ne (tabs : list Tab) :
  ∀ (acc : State * list Z) (k : Z),
    k ∉ tab_tabId <$> tabs →
    tabsInfoMap (fold_left synchronizeOpenTab tabs acc).1 !! k
    = tabsInfoMap acc.1 !! k.
Proof.
  induction tabs as [|tab tabs IH]; [done |].
  intros [st ids] k Hk. rewrite fmap_cons, not_elem_of_cons in Hk.
  simpl fold_left. rewrite IH by tauto. simpl.
  destruct (tabsInfoMap st !! tab_tabId tab);
    [apply lookup_updateTab_ne | apply lookup_addTab_ne]; tauto.
Qed.

Lemma lookup_synchronizeOpenTab_eq (acc : State * list Z) (tab : Tab) :
  tab_tabId tab ≠ backgroundTabId →
  tabsInfoMap (synchronizeOpenTab acc tab).1 !! tab_tabId tab
  = Some (mkTabInfo (tab_tabId tab) (tab_title tab)
                    (Some (isExtensionTabOf tab))
                    (bufferOf (tab_tabId tab) acc.1)).
Proof.
  destruct acc as [st ids]. intros Hbg. unfold bufferOf. simpl.
  destruct (tabsInfoMap st !! tab_tabId tab) as [tabInfo|] eqn:Hlook;
    unfold addTab, updateTab, updateTabInfo; rewrite decide_False by done;
    simpl; rewrite Hlook; apply lookup_insert_eq.
Qed.

(** X17: after [synchronizeOpenTabs], the entry of an open tab that is not
    the background tab has the [tabId], the [title] and the [isExtensionTab]
    of the last tab of the list with that id, and the buffer the tab had
    before. *)
Theorem sweep_refreshes_metadata (before after : list Tab) (tab : Tab)
    (st : State) :
  tab_tabId tab ≠ backgroundTabId →
  tab_tabId tab ∉ tab_tabId <$> after →
  getFilteringInfoByTabId (tab_tabId tab)
    (synchronizeOpenTabs (before ++ tab :: after) st)
  = Some (mkTabInfo (tab_tabId tab) (tab_title tab)
                    (Some (isExtensionTabOf tab))
                    (bufferOf (tab_tabId tab) st)).
Proof.
  intros Hbg Hlast. unfold getFilteringInfoByTabId, synchronizeOpenTabs.
  pose proof (ids_fold_synchronizeOpenTab (before ++ tab :: after)
                (st, tabsInfoMapKeys st) (NoDup_fst_map_to_list _)
                (tab_tabId tab)) as Hids.
  rewrite fold_left_app in *. simpl fold_left in *.
  pose proof (bufferOf_fold_synchronizeOpenTab before
                (st, tabsInfoMapKeys st) (tab_tabId tab)) as Hbuf.
  pose proof (lookup_synchronizeOpenTab_eq
                (fold_left synchronizeOpenTab before
                           (st, tabsInfoMapKeys st)) tab Hbg) as Hentry.
  rewrite Hbuf in Hentry.
  pose proof (lookup_fold_synchronizeOpenTab_ne after
                (synchronizeOpenTab
                   (fold_left synchronizeOpenTab before
                              (st, tabsInfoMapKeys st)) tab)
                (tab_tabId tab) Hlast) as Hafter.
  rewrite Hentry in Hafter.
  destruct (fold_left synchronizeOpenTab after _) as [st1 ids1].
  simpl in Hids, Hafter.
  rewrite lookup_fold_removeTabById_kept; [done |].
  right. rewrite Hids. intros [_ Hnot]. apply Hnot.
  rewrite fmap_app, fmap_cons, elem_of_app, elem_of_cons. tauto.
Qed.

(** X18: [addTab] and [updateTab] keep the events: the buffer of every tab
    is the same before and after, also for the tab that is added or
    updated. *)
Theorem tab_events_keep_buffers (tab : Tab) (st : State) (k : Z) :
  bufferOf k (addTab tab st) = bufferOf k st
  ∧ bufferOf k (updateTab tab st) = bufferOf k st.
Proof.
  unfold bufferOf, addTab, updateTab, updateTabInfo.
  split; (case_decide; [done |]); simpl;
    (destruct (decide (k = tab_tabId tab)) as [-> | Hne];
     [rewrite lookup_insert_eq | by rewrite lookup_insert_ne]);
    by destruct (tabsInfoMap st !! tab_tabId tab).
Qed.

(** X19: [removeTabById] of an id that is not registered returns the state
    as it was.  For a registered id that is not the background tab id it
    takes the entry out, whatever buffer it has, and publishes one
    [TAB_CLOSE] with that entry; recording for the tab afterwards does
    nothing. *)
Theorem removed_tab_is_forgotten (tab : Tab) (st : State) :
  tab_tabId tab ≠ backgroundTabId →
  let st' := removeTabById (tab_tabId tab) st in
  (getFilteringInfoByTabId (tab_tabId tab) st = None → st' = st)
  ∧ (∀ tabInfo,
       getFilteringInfoByTabId (tab_tabId tab) st = Some tabInfo →
       emitted st st' = [TAB_CLOSE tabInfo])
  ∧ getFilteringInfoByTabId (tab_tabId tab) st' = None
  ∧ (∀ k, k ≠ tab_tabId tab →
          getFilteringInfoByTabId k st' = getFilteringInfoByTabId k st)
  ∧ (∀ u f ty r id, addHttpRequestEvent tab u f ty r id st' = st')
  ∧ (∀ n v d ty r m tp, addCookieEvent tab n v d ty r m tp st' = st').
Proof.
  intros Hbg st'. unfold getFilteringInfoByTabId.
  assert (Hgone : tabsInfoMap st' !! tab_tabId tab = None).
  { subst st'. rewrite tabsInfoMap_removeTabById, decide_False by done.
    apply lookup_delete_eq. }
  split_and!.
  - intros Hunknown. subst st'. unfold removeTabById.
    rewrite decide_False by done. rewrite Hunknown.
    rewrite delete_id by done. by destruct st.
  - intros tabInfo Hknown. apply emitted_app. subst st'.
    unfold removeTabById. rewrite decide_False by done.
    by rewrite Hknown.
  - done.
  - intros k Hk. subst st'. apply lookup_removeTabById_ne. by right.
  - intros. unfold addHttpRequestEvent. rewrite Hgone. by case_decide.
  - intros. unfold addCookieEvent. rewrite Hgone. by case_decide.
Qed.

(** *** What a sweep publishes *)

Lemma round_notes (acc : State * list Z) (tab : Tab) :
  ∃ ns,
    notified (synchronizeOpenTab acc tab).1 = notified acc.1 ++ ns
    ∧ (∀ t, TAB_CLOSE t ∉ ns)
    ∧ ∀ k, (∃ t, TAB_ADDED t ∈ ns ∧ tabId t = k)
           ↔ k = tab_tabId tab ∧ k ≠ backgroundTabId
             ∧ tabsInfoMap acc.1 !! k = None.
Proof.
  destruct acc as [st ids]. simpl.
  destruct (decide (tab_tabId tab = backgroundTabId)) as [Hbg | Hbg].
  - exists []. unfold addTab, updateTab. rewrite !decide_True by done.
    split_and!.
    + rewrite app_nil_r. by destruct (tabsInfoMap st !! tab_tabId tab).
    + intros t. apply not_elem_of_nil.
    + intros k. split.
      * intros (t & Hin & _). by apply elem_of_nil in Hin.
      * intros (-> & Hk & _). done.
  - destruct (tabsInfoMap st !! tab_tabId tab) as [tabInfo|] eqn:Hlook;
      unfold addTab, updateTab; rewrite decide_False by done;
      eexists [_]; (split_and!; [done | |]).
    + intros t Hin. apply list_elem_of_singleton in Hin. done.
    + intros k. split.
      * intros (t & Hin & _). apply list_elem_of_singleton in Hin. done.
      * intros (-> & _ & Hnone). congruence.
    + intros t Hin. apply list_elem_of_singleton in Hin. done.
    + intros k. split.
      * intros (t & Hin & <-). apply list_elem_of_singleton in Hin.
        injection Hin as ->. done.
      * intros (-> & _ & _). eexists. split; [by left | done].
Qed.

Lemma loop_notes (tabs : list Tab) :
  ∀ acc : State * list Z,
    ∃ ns,
      notified (fold_left synchronizeOpenTab tabs acc).1
      = notified acc.1 ++ ns
      ∧ (∀ t, TAB_CLOSE t ∉ ns)
      ∧ ∀ k, (∃ t, TAB_ADDED t ∈ ns ∧ tabId t = k)
             ↔ k ≠ backgroundTabId ∧ k ∈ tab_tabId <$> tabs
               ∧ tabsInfoMap acc.1 !! k = None.
Proof.
  induction tabs as [|tab tabs IH]; intros acc.
  { exists []. split_and!.
    - simpl. by rewrite app_nil_r.
    - intros t. apply not_elem_of_nil.
    - intros k. split.
      + intros (t & Hin & _). by apply elem_of_nil in Hin.
      + intros (_ & Hin & _). by apply elem_of_nil in Hin. }
  simpl fold_left.
  destruct (round_notes acc tab) as (ns1 & Hn1 & Hclose1 & Hadd1).
  destruct (IH (synchronizeOpenTab acc tab))
    as (ns2 & Hn2 & Hclose2 & Hadd2).
  exists (ns1 ++ ns2). split_and!.
  - by rewrite Hn2, Hn1, app_assoc.
  - intros t. rewrite not_elem_of_app. split; [apply Hclose1 | apply Hclose2].
  - intros k. rewrite fmap_cons, elem_of_cons.
    pose proof (lookup_synchronizeOpenTab acc tab k) as Hstep.
    rewrite !eq_None_not_Some in *.
    specialize (Hadd1 k). specialize (Hadd2 k).
    rewrite eq_None_not_Some in Hadd1, Hadd2.
    split.
    + intros (t & [Hin | Hin]%elem_of_app & Hid).
      * assert (Hex : ∃ t, TAB_ADDED t ∈ ns1 ∧ tabId t = k) by eauto.
        apply Hadd1 in Hex. tauto.
      * assert (Hex : ∃ t, TAB_ADDED t ∈ ns2 ∧ tabId t = k) by eauto.
        apply Hadd2 in Hex. tauto.
    + intros (Hbg & Hin & Hnone).
      destruct (decide (k = tab_tabId tab)) as [Heq | Hne].
      * destruct Hadd1 as [_ Hadd1].
        destruct Hadd1 as (t & Ht & Hid); [tauto |].
        exists t. rewrite elem_of_app. tauto.
      * destruct Hadd2 as [_ Hadd2].
        destruct Hadd2 as (t & Ht & Hid); [tauto |].
        exists t. rewrite elem_of_app. tauto.
Qed.

Lemma removal_notes (ids : list Z) :
  NoDup ids →
  ∀ st : State,
    ∃ ns,
      notified (fold_left (λ st id, removeTabById id st) ids st)
      = notified st ++ ns
      ∧ (∀ t, TAB_ADDED t ∉ ns)
      ∧ ∀ t, TAB_CLOSE t ∈ ns
             ↔ ∃ k, k ∈ ids ∧ k ≠ backgroundTabId
                    ∧ tabsInfoMap st !! k = Some t.
Proof.
  induction ids as [|id ids IH]; intros Hnd st.
  { exists []. split_and!.
    - simpl. by rewrite app_nil_r.
    - intros t. apply not_elem_of_nil.
    - intros t. split.
      + intros Hin. by apply elem_of_nil in Hin.
      + intros (k & Hin & _). by apply elem_of_nil in Hin. }
  apply NoDup_cons in Hnd as [Hfresh Hnd]. simpl.
  destruct (IH Hnd (removeTabById id st)) as (ns2 & Hn2 & Hadd2 & Hclose2).
  assert (Hsame : ∀ k, k ∈ ids →
            tabsInfoMap (removeTabById id st) !! k = tabsInfoMap st !! k).
  { intros k Hk. apply lookup_removeTabById_ne. right. by intros ->. }
  assert (Hfirst : ∃ ns1,
            notified (removeTabById id st) = notified st ++ ns1
            ∧ (∀ t, TAB_ADDED t ∉ ns1)
            ∧ ∀ t, TAB_CLOSE t ∈ ns1
                   ↔ id ≠ backgroundTabId ∧ tabsInfoMap st !! id = Some t).
  { unfold removeTabById. case_decide as Hbg.
    - exists []. split_and!; [by rewrite app_nil_r | |].
      + intros t. apply not_elem_of_nil.
      + intros t. rewrite elem_of_nil. tauto.
    - destruct (tabsInfoMap st !! id) as [tabInfo|]; simpl.
      + exists [TAB_CLOSE tabInfo]. split_and!; [done | |].
        * intros t Hin. apply list_elem_of_singleton in Hin. done.
        * intros t. rewrite list_elem_of_singleton. split.
          -- intros [= ->]. done.
          -- intros [_ [= ->]]. done.
      + exists []. split_and!; [by rewrite app_nil_r | |].
        * intros t. apply not_elem_of_nil.
        * intros t. rewrite elem_of_nil. split; [done | by intros [_ ?]]. }
  destruct Hfirst as (ns1 & Hn1 & Hadd1 & Hclose1).
  exists (ns1 ++ ns2). split_and!.
  - by rewrite Hn2, Hn1, app_assoc.
  - intros t. rewrite not_elem_of_app. split; [apply Hadd1 | apply Hadd2].
  - intros t. rewrite elem_of_app, Hclose1, Hclose2. split.
    + intros [[Hbg Hlook] | (k & Hk & Hbg & Hlook)].
      * exists id. split_and!; [by left | done | done].
      * exists k. split_and!; [by right | done |]. by rewrite <- Hsame.
    + intros (k & [-> | Hk]%elem_of_cons & Hbg & Hlook).
      * by left.
      * right. exists k. split_and!; [done | done |]. by rewrite Hsame.
Qed.

Lemma NoDup_fold_synchronizeOpenTab (tabs : list Tab) :
  ∀ acc : State * list Z,
    NoDup acc.2 → NoDup (fold_left synchronizeOpenTab tabs acc).2.
Proof.
  induction tabs as [|tab tabs IH]; [done |].
  intros [st ids] Hnd. simpl fold_left. apply IH. simpl.
  by apply splice_indexOf.
Qed.

(** X20: [synchronizeOpenTabs] publishes a [TAB_ADDED] for a tab id exactly
    when the id is the id of an open tab, is not the background tab id and
    was not registered before; and it publishes [TAB_CLOSE] with an entry
    exactly when that entry was registered under an id that is not the
    background tab id and is not the id of an open tab. *)
Theorem sweep_adds_and_closes (tabs : list Tab) (st : State) :
  let st' := synchronizeOpenTabs tabs st in
  (∀ k, (∃ tabInfo, TAB_ADDED tabInfo ∈ emitted st st' ∧ tabId tabInfo = k)
        ↔ k ≠ backgroundTabId ∧ k ∈ tab_tabId <$> tabs
          ∧ getFilteringInfoByTabId k st = None)
  ∧ (∀ tabInfo,
       TAB_CLOSE tabInfo ∈ emitted st st'
       ↔ (∃ k, k ≠ backgroundTabId
               ∧ getFilteringInfoByTabId k st = Some tabInfo
               ∧ k ∉ tab_tabId <$> tabs)).
Proof.
  intros st'. subst st'. unfold getFilteringInfoByTabId, synchronizeOpenTabs.
  pose proof (ids_fold_synchronizeOpenTab tabs (st, tabsInfoMapKeys st)
                (NoDup_fst_map_to_list _)) as Hids.
  pose proof (NoDup_fold_synchronizeOpenTab tabs (st, tabsInfoMapKeys st)
                (NoDup_fst_map_to_list _)) as Hnd.
  pose proof (lookup_fold_synchronizeOpenTab_ne tabs
                (st, tabsInfoMapKeys st)) as Hother.
  destruct (loop_notes tabs (st, tabsInfoMapKeys st))
    as (ns1 & Hn1 & Hclose1 & Hadd1).
  destruct (fold_left synchronizeOpenTab tabs (st, tabsInfoMapKeys st))
    as [st1 ids1].
  simpl in Hids, Hnd, Hother, Hn1, Hadd1.
  destruct (removal_notes ids1 Hnd st1) as (ns2 & Hn2 & Hadd2 & Hclose2).
  assert (Hemit : emitted st (fold_left (λ st id, removeTabById id st)
                                        ids1 st1) = ns1 ++ ns2).
  { apply emitted_app. by rewrite Hn2, Hn1, app_assoc. }
  rewrite Hemit. split.
  - intros k. rewrite <- Hadd1. split.
    + intros (t & [Hin | Hin]%elem_of_app & Hid); [by exists t |].
      by apply Hadd2 in Hin.
    + intros (t & Hin & Hid). exists t. rewrite elem_of_app. tauto.
  - intros tabInfo. rewrite elem_of_app, Hclose2. split.
    + intros [Hin | (k & Hk & Hbg & Hlook)]; [by apply Hclose1 in Hin |].
      apply Hids in Hk as [_ Hk]. exists k.
      split_and!; [done | | done]. by rewrite <- Hother.
    + intros (k & Hbg & Hlook & Hk). right. exists k.
      split_and!; [| done | by rewrite Hother].
      apply Hids. split; [| done].
      apply elem_of_tabsInfoMapKeys. by eexists.
Qed.

(** *** Cookie events *)

(** X21: with a filtering-log page opened and the tab registered, the event
    that [addCookieEvent] puts at the end of the buffer has the cookie name,
    the cookie value, the cookie domain as [frameDomain] and no [eventId].
    It has [stealthActions] only when a rule is given whose stealth actions
    are a number other than 0, and then that number. *)
Theorem cookie_event_fields (tab : Tab) (tabInfo : TabInfo) (st : State)
    (name value domain ty : string) (rule : option Rule)
    (modifying thirdParty : bool) :
  openedFilteringLogsPage st ≠ 0 →
  tabsInfoMap st !! tab_tabId tab = Some tabInfo →
  ∃ event,
    appended (tab_tabId tab) event st
             (addCookieEvent tab name value domain ty rule modifying
                             thirdParty st)
    ∧ cookieName event = Some name
    ∧ cookieValue event = Some value
    ∧ frameDomain event = Some (Some domain)
    ∧ requestThirdParty event = Some thirdParty
    ∧ eventId event = None
    ∧ stealthActions event
      = match rule ≫= rule_stealthActions with
        | Some actions => if actions =? 0 then None else Some actions
        | None => None
        end.
Proof.
  intros Hopen Hknown. unfold addCookieEvent.
  rewrite decide_False by done. rewrite Hknown.
  eexists. split; [apply pushFilteringEvent_appended |].
  destruct rule as [rule|]; simpl; [| done].
  unfold truthyNumber.
  destruct (rule_stealthActions rule) as [actions|]; simpl; [| done].
  by destruct (actions =? 0).
Qed.

End Properties.


(** ** The properties on the concrete host *)

(** C1 on [Demo.history]: the buffer of tab 1 holds one event. *)
Lemma buffer_holds_at_most_1000_witness :
  (length [Demo.eventA] ≤ 1000)%nat
  ∧ ∀ events',
      bufferOf 1 (run (@initialState Demo.adguard) Demo.history)
      = Some events' →
      events' = [Demo.eventA].
Proof.
  apply (@buffer_holds_at_most_1000 Demo.adguard Demo.history 1
           (Demo.tabInfo1 (Some [Demo.eventA])) [Demo.eventA]).
  - vm_compute. reflexivity.
  - reflexivity.
Defined.

(** C2 on [Demo.openState]: 1001 requests of tab 1, numbered from 0. *)
Lemma overflow_evicts_index_1_witness :
  ∃ events,
    bufferOf 1
      (fold_left (@recordRequest Demo.adguard Demo.tab1)
                 (Demo.request 0 :: (Demo.request <$> seq 1 1000))
                 Demo.openState)
    = Some events
    ∧ events !! 0%nat = Some (@requestEvent Demo.adguard (Demo.request 0))
    ∧ length events = 1000%nat
    ∧ events
      = @requestEvent Demo.adguard (Demo.request 0)
        :: tail (@requestEvent Demo.adguard
                   <$> (Demo.request <$> seq 1 1000)).
Proof.
  apply (@overflow_evicts_index_1 Demo.adguard Demo.tab1
           (Demo.tabInfo1 None) Demo.openState (Demo.request 0)
           (Demo.request <$> seq 1 1000)).
  - vm_compute. discriminate.
  - vm_compute. reflexivity.
  - reflexivity.
  - vm_compute. reflexivity.
Defined.

(** C3 on [Demo.twiceLoggedState], where both events of tab 1 have the
    [eventId] 10: each of the three bindings writes to the second one and
    leaves the first one as it was. *)
Lemma binding_updates_latest_match_witness :
  (bufferOf 1
     (bindRuleToHttpRequestEvent Demo.tab1 Demo.blockingRule (Some 10)
        Demo.twiceLoggedState)
   = Some [Demo.eventA; Demo.eventBWithRule]
   ∧ emitted Demo.twiceLoggedState
       (bindRuleToHttpRequestEvent Demo.tab1 Demo.blockingRule (Some 10)
          Demo.twiceLoggedState)
     = [LOG_EVENT_UPDATED
          (Demo.tabInfo1 (Some [Demo.eventA; Demo.eventBWithRule]))
          Demo.eventBWithRule])
  ∧ (bufferOf 1
       (bindReplaceRulesToHttpRequestEvent Demo.tab1
          [Demo.blockingRule; Demo.replacingRule] (Some 10)
          Demo.twiceLoggedState)
     = Some [Demo.eventA; Demo.eventBReplaced]
     ∧ emitted Demo.twiceLoggedState
         (bindReplaceRulesToHttpRequestEvent Demo.tab1
            [Demo.blockingRule; Demo.replacingRule] (Some 10)
            Demo.twiceLoggedState)
       = [LOG_EVENT_UPDATED
            (Demo.tabInfo1 (Some [Demo.eventA; Demo.eventBReplaced]))
            Demo.eventBReplaced])
  ∧ (bufferOf 1
       (bindStealthActionsToHttpRequestEvent Demo.tab1 4 (Some 10)
          Demo.twiceLoggedState)
     = Some [Demo.eventA; Demo.eventBWithActions]
     ∧ emitted Demo.twiceLoggedState
         (bindStealthActionsToHttpRequestEvent Demo.tab1 4 (Some 10)
            Demo.twiceLoggedState)
       = [LOG_EVENT_UPDATED
            (Demo.tabInfo1 (Some [Demo.eventA; Demo.eventBWithActions]))
            Demo.eventBWithActions]).
Proof.
  destruct (binding_updates_latest_match Demo.tab1
              (Demo.tabInfo1 (Some [Demo.eventA; Demo.eventB]))
              [Demo.eventA; Demo.eventB] 1%nat Demo.eventB (Some 10)
              Demo.twiceLoggedState) as (Hrule & Hreplace & Hactions & _).
  - vm_compute. discriminate.
  - vm_compute. reflexivity.
  - reflexivity.
  - reflexivity.
  - reflexivity.
  - intros [|[|j]] later Hj Hlook; [lia | lia | discriminate].
  - split_and!.
    + destruct (Hrule Demo.blockingRule) as (_ & _ & _ & Hbuf & _).
      exact Hbuf.
    + destruct (Hrule Demo.blockingRule) as (_ & _ & Hemit & _).
      exact Hemit.
    + destruct (Hreplace [Demo.blockingRule; Demo.replacingRule])
        as (_ & _ & _ & Hbuf & _).
      exact Hbuf.
    + destruct (Hreplace [Demo.blockingRule; Demo.replacingRule])
        as (_ & _ & Hemit & _).
      exact Hemit.
    + destruct (Hactions 4) as (_ & _ & _ & Hbuf & _). exact Hbuf.
    + destruct (Hactions 4) as (_ & _ & Hemit & _). exact Hemit.
Defined.

(** C4 on [Demo.closedState], where no filtering-log page is opened. *)
Lemma gated_off_is_noop_witness :
  @addHttpRequestEvent Demo.adguard Demo.tab1 "https://ads.example.org/a.js"
    "https://example.org/" "SCRIPT" (Some Demo.blockingRule) (Some 10)
    Demo.closedState
  = Demo.closedState
  ∧ bindStealthActionsToHttpRequestEvent Demo.tab1 4 (Some 10)
      Demo.closedState
    = Demo.closedState.
Proof.
  destruct (@gated_off_is_noop Demo.adguard Demo.closedState)
    as (_ & Hhttp & _ & _ & _ & _ & Hstealth).
  - vm_compute. reflexivity.
  - split; [apply Hhttp | apply Hstealth].
Defined.


(** C6 on [Demo.loggedState], where one page is opened and tab 1 has a
    buffer. *)
Lemma close_last_keeps_metadata_witness :
  ∃ tabInfo',
    getFilteringInfoByTabId 1 (onCloseFilteringLogPage Demo.loggedState)
    = Some tabInfo'
    ∧ tabId tabInfo' = 1
    ∧ title tabInfo' = "Example"
    ∧ isExtensionTab tabInfo' = Some (JsBool false)
    ∧ filteringEvents tabInfo' = None.
Proof.
  destruct (close_last_keeps_metadata Demo.loggedState)
    as (_ & _ & Hkeeps).
  - vm_compute. reflexivity.
  - apply (Hkeeps 1 (Demo.tabInfo1 (Some [Demo.eventA]))).
    vm_compute. reflexivity.
Defined.

(** C9 fails as stated on [Demo.openState]: a page is opened and tab 1 is
    registered; an element recorded without a rule is not put in the
    buffer. *)
Lemma cosmetic_without_rule_counterexample :
  openedFilteringLogsPage Demo.openState ≠ 0
  ∧ is_Some (tabsInfoMap Demo.openState !! 1)
  ∧ ¬ ∃ event,
        appended 1 event Demo.openState
          (@addCosmeticEvent Demo.adguard Demo.tab1 (inl "div.banner")
             "https://example.org/" "DOCUMENT" None Demo.openState).
Proof.
  split_and!.
  - vm_compute. discriminate.
  - eexists. vm_compute. reflexivity.
  - intros (event & tabInfo & _ & _ & Hnote).
    apply (f_equal length) in Hnote. rewrite length_app in Hnote.
    vm_compute in Hnote. discriminate.
Qed.

(** C9 on [Demo.openState]: a request recorded with a rule, an element
    recorded without one. *)
Lemma records_embed_rule_snapshot_witness :
  (∃ event,
     appended 1 event Demo.openState
       (@addHttpRequestEvent Demo.adguard Demo.tab1
          "https://ads.example.org/a.js" "https://example.org/" "SCRIPT"
          (Some Demo.blockingRule) (Some 10) Demo.openState)
     ∧ requestRule event = Some (snapshotOf Demo.blockingRule))
  ∧ @addCosmeticEvent Demo.adguard Demo.tab1 (inl "div.banner")
      "https://example.org/" "DOCUMENT" None Demo.openState
    = Demo.openState.
Proof.
  destruct (@records_embed_rule_snapshot Demo.adguard Demo.tab1
              (Demo.tabInfo1 None) Demo.openState)
    as (Hhttp & _ & _ & Hnone & _).
  - vm_compute. discriminate.
  - vm_compute. reflexivity.
  - split; [apply Hhttp | apply Hnone].
Defined.

(** C10 on [Demo.closedState], where no page is opened: tab 1 is
    registered, no tab has the id 5. *)
Lemma clearEventsByTabId_ignores_gate_witness :
  openedFilteringLogsPage Demo.closedState = 0
  ∧ notified (clearEventsByTabId 1 Demo.closedState)
    = notified Demo.closedState ++ [TAB_RESET (Demo.tabInfo1 None)]
  ∧ clearEventsByTabId 5 Demo.closedState = Demo.closedState.
Proof.
  split; [vm_compute; reflexivity |].
  split.
  - destruct (clearEventsByTabId_ignores_gate 1 Demo.closedState)
      as (Hknown & _).
    destruct (Hknown (Demo.tabInfo1 None)) as (_ & _ & Hnote & _).
    + vm_compute. reflexivity.
    + exact Hnote.
  - apply (clearEventsByTabId_ignores_gate 5 Demo.closedState).
    vm_compute. reflexivity.
Defined.

(** X1 on [Demo.history]. *)
Lemma registry_keyed_by_tabId_witness :
  tabId (Demo.tabInfo1 (Some [Demo.eventA])) = 1.
Proof.
  apply (@registry_keyed_by_tabId Demo.adguard Demo.history 1).
  vm_compute. reflexivity.
Defined.

(** X2 on [Demo.history] followed by the closing of the page. *)
Lemma closed_gate_holds_no_events_witness :
  openedFilteringLogsPage
    (run (@initialState Demo.adguard)
         (Demo.history ++ [@OnCloseFilteringLogPage Demo.adguard]))
  = 0
  ∧ bufferOf 1
      (run (@initialState Demo.adguard)
           (Demo.history ++ [@OnCloseFilteringLogPage Demo.adguard]))
    = None.
Proof.
  apply (@closed_gate_holds_no_events Demo.adguard).
  vm_compute. reflexivity.
Defined.

(** X3 on [Demo.loggedState], where no tab has the id 3. *)
Lemma unknown_tab_is_noop_witness :
  @addHttpRequestEvent Demo.adguard Demo.tab3 "https://ads.example.org/a.js"
    "https://example.org/" "SCRIPT" None (Some 12) Demo.loggedState
  = Demo.loggedState.
Proof.
  apply (@unknown_tab_is_noop Demo.adguard Demo.tab3 Demo.loggedState).
  vm_compute. reflexivity.
Defined.

(** X4 on [Demo.loggedState], where no event has the [eventId] 11. *)
Lemma unmatched_eventId_is_noop_witness :
  bindRuleToHttpRequestEvent Demo.tab1 Demo.blockingRule (Some 11)
                             Demo.loggedState
  = Demo.loggedState.
Proof.
  apply (unmatched_eventId_is_noop Demo.tab1 (Some 11) Demo.loggedState).
  intros events j event Hbuf Hlook. vm_compute in Hbuf.
  injection Hbuf as <-.
  destruct j as [|j]; [injection Hlook as <-; discriminate | discriminate].
Defined.

(** X5 on [Demo.openState]: a request of tab 1 and the entry of tab 2. *)
Lemma other_tabs_untouched_witness :
  getFilteringInfoByTabId 2
    (@addHttpRequestEvent Demo.adguard Demo.tab1
       "https://ads.example.org/a.js" "https://example.org/" "SCRIPT" None
       (Some 10) Demo.openState)
  = getFilteringInfoByTabId 2 Demo.openState.
Proof.
  apply (@other_tabs_untouched Demo.adguard
           (@AddHttpRequestEvent Demo.adguard Demo.tab1
              "https://ads.example.org/a.js" "https://example.org/" "SCRIPT"
              None (Some 10))
           1 2 Demo.openState).
  - reflexivity.
  - discriminate.
Defined.

(** X9 on [Demo.loggedState], which already holds an event with the
    [eventId] 10. *)
Lemma bind_finds_just_recorded_witness :
  tabsInfoMap
    (bindRuleToHttpRequestEvent Demo.tab1 Demo.blockingRule (Some 10)
       (@addHttpRequestEvent Demo.adguard Demo.tab1
          "https://ads.example.org/b.js" "https://example.org/" "SCRIPT"
          None (Some 10) Demo.loggedState))
  = tabsInfoMap
      (@addHttpRequestEvent Demo.adguard Demo.tab1
         "https://ads.example.org/b.js" "https://example.org/" "SCRIPT"
         (Some Demo.blockingRule) (Some 10) Demo.loggedState).
Proof.
  apply (@bind_finds_just_recorded Demo.adguard Demo.tab1
           (Demo.tabInfo1 (Some [Demo.eventA])) Demo.loggedState).
  - vm_compute. discriminate.
  - vm_compute. reflexivity.
Defined.

(** X11 on [Demo.loggedState]. *)
Lemma record_after_clear_restarts_witness :
  bufferOf 1
    (@recordRequest Demo.adguard Demo.tab1
       (clearEventsByTabId 1 Demo.loggedState) (Demo.request 5))
  = Some [@requestEvent Demo.adguard (Demo.request 5)].
Proof.
  apply (@record_after_clear_restarts Demo.adguard Demo.tab1
           (Demo.tabInfo1 (Some [Demo.eventA])) Demo.loggedState).
  - vm_compute. discriminate.
  - vm_compute. reflexivity.
Defined.

(** X12 on [Demo.openState]: 1501 requests of tab 1, numbered from 0. *)
Lemma buffer_keeps_first_and_latest_witness :
  bufferOf 1
    (fold_left (@recordRequest Demo.adguard Demo.tab1)
               (Demo.request 0 :: (Demo.request <$> seq 1 1500))
               Demo.openState)
  = Some (@requestEvent Demo.adguard (Demo.request 0)
          :: drop (length (Demo.request <$> seq 1 1500) - 999)
                  (@requestEvent Demo.adguard
                     <$> (Demo.request <$> seq 1 1500))).
Proof.
  apply (@buffer_keeps_first_and_latest Demo.adguard Demo.tab1
           (Demo.tabInfo1 None) Demo.openState).
  - vm_compute. discriminate.
  - vm_compute. reflexivity.
  - reflexivity.
Defined.

(** X13 on [Demo.loggedState]: a cookie of tab 1 is recorded. *)
Lemma recording_keeps_first_event_witness :
  bufferOf 1
    (step Demo.loggedState
       (@AddCookieEvent Demo.adguard Demo.tab1 "id" "42" "example.org"
          "COOKIE" None false false))
  ≫= head
  = Some Demo.eventA.
Proof.
  apply (@recording_keeps_first_event Demo.adguard).
  - reflexivity.
  - vm_compute. reflexivity.
Defined.

(** X14 on [Demo.loggedState]: one more page opens, then three close. *)
Lemma opens_then_closes_witness :
  openedFilteringLogsPage
    (Nat.iter 3 onCloseFilteringLogPage
              (Nat.iter 1 onOpenFilteringLogPage Demo.loggedState))
  = 0
  ∧ bufferOf 1
      (Nat.iter 3 onCloseFilteringLogPage
                (Nat.iter 1 onOpenFilteringLogPage Demo.loggedState))
    = None.
Proof.
  destruct (opens_then_closes 1 3 Demo.loggedState 1)
    as (Hcount & _ & Hnone).
  - vm_compute. discriminate.
  - split; [exact Hcount |]. apply Hnone; [lia | exact Hcount].
Defined.

(** X16 on [Demo.loggedState]: tab 2 has closed, tab 3 has opened. *)
Lemma sweep_registers_open_tabs_witness :
  bufferOf 1
    (@synchronizeOpenTabs Demo.adguard [Demo.tab1; Demo.tab3]
       Demo.loggedState)
  = bufferOf 1 Demo.loggedState.
Proof.
  apply (@sweep_registers_open_tabs Demo.adguard [Demo.tab1; Demo.tab3]
           Demo.loggedState 1).
  eexists. vm_compute. reflexivity.
Defined.

(** X17 on [Demo.loggedState]: tab 1 comes twice in the list. *)
Lemma sweep_refreshes_metadata_witness :
  getFilteringInfoByTabId 1
    (@synchronizeOpenTabs Demo.adguard
       ([Demo.tab1; Demo.tab2] ++ Demo.tab1Reloaded :: [Demo.tab2])
       Demo.loggedState)
  = Some (mkTabInfo 1 "Example (reloaded)" (Some (JsBool false))
                    (Some [Demo.eventA])).
Proof.
  apply (@sweep_refreshes_metadata Demo.adguard [Demo.tab1; Demo.tab2]
           [Demo.tab2] Demo.tab1Reloaded Demo.loggedState).
  - discriminate.
  - intros Hin. apply list_elem_of_singleton in Hin. discriminate.
Defined.

(** X19 on [Demo.loggedState]: tab 1 is removed. *)
Lemma removed_tab_is_forgotten_witness :
  emitted Demo.loggedState
          (@removeTabById Demo.adguard 1 Demo.loggedState)
  = [TAB_CLOSE (Demo.tabInfo1 (Some [Demo.eventA]))]
  ∧ getFilteringInfoByTabId 1
      (@removeTabById Demo.adguard 1 Demo.loggedState)
    = None.
Proof.
  destruct (@removed_tab_is_forgotten Demo.adguard Demo.tab1
              Demo.loggedState) as (_ & Hclose & Hgone & _).
  - discriminate.
  - split; [| exact Hgone]. apply Hclose. vm_compute. reflexivity.
Defined.

(** X21 on [Demo.openState]: a cookie rule whose stealth actions are 0. *)
Lemma cookie_event_fields_witness :
  ∃ event,
    appended 1 event Demo.openState
      (addCookieEvent Demo.tab1 "id" "42" "example.org" "COOKIE"
         (Some Demo.cookieRule0) true false Demo.openState)
    ∧ cookieName event = Some "id"
    ∧ stealthActions event = None.
Proof.
  destruct (cookie_event_fields Demo.tab1 (Demo.tabInfo1 None)
              Demo.openState "id" "42" "example.org" "COOKIE"
              (Some Demo.cookieRule0) true false)
    as (event & Happ & Hname & _ & _ & _ & _ & Hactions).
  - vm_compute. discriminate.
  - vm_compute. reflexivity.
  - exists event. split_and!; [exact Happ | exact Hname | exact Hactions].
Defined.
